(** * p2s.py: converting PyTorch checkpoints to safetensors

    A shallow embedding of [src/p2s.py].  The script loads a checkpoint with
    [torch.load], picks the dictionary to emit according to the model type
    ("embedding" or "vae"), and hands it to [safetensors.torch.save_file].

    The four functions of the script and [main] are embedded as computations
    over an explicit world (file system and standard output) that may raise a
    Python exception.  The two library calls whose results the script does not
    determine ([torch.load]'s unpickling and [save_file]'s serialisation) are
    an interface of the development. *)

From Stdlib.Strings Require Import Byte.
From stdpp Require Import base strings pretty list gmap.

Open Scope string_scope.
Set Warnings "-register-all".

(** ** Python values *)

Inductive dtype := F16 | F32 | F64 | I8 | I16 | I32 | I64 | U8 | BOOL.

Record tensor := Tensor {
  tensor_dtype : dtype;
  tensor_shape : list N;
  tensor_data : list byte
}.

(** What a checkpoint holds: mappings with string keys, sequences, scalars
    and tensors.  A [dict] is a finite map from its keys (the script never
    iterates over one); a float is kept as its 64-bit pattern. *)
Inductive pyval :=
  | PNone
  | PBool (b : bool)
  | PInt (n : Z)
  | PFloat (bits : Z)
  | PStr (s : string)
  | PList (l : list pyval)
  | PDict (d : gmap string pyval)
  | PTensor (t : tensor).

Abbreviation pydict := (gmap string pyval).

(** [type(v).__name__], as it appears in the message of an AttributeError. *)
Definition type_name (v : pyval) : string :=
  match v with
  | PNone => "NoneType"
  | PBool _ => "bool"
  | PInt _ => "int"
  | PFloat _ => "float"
  | PStr _ => "str"
  | PList _ => "list"
  | PDict _ => "dict"
  | PTensor _ => "Tensor"
  end.

(** [v is not None] *)
Definition is_not_None (v : pyval) : bool :=
  match v with PNone => false | _ => true end.

(** [d.get(k, default)] on a dict. *)
Definition dict_get (d : pydict) (k : string) (default : pyval) : pyval :=
  match d !! k with
  | Some v => v
  | None => default
  end.

(** [k in d] on a dict. *)
Definition dict_contains (d : pydict) (k : string) : bool :=
  bool_decide (is_Some (d !! k)).

(** ** Exceptions *)

Inductive exn :=
  | FileNotFoundError (msg : string)
  | IsADirectoryError (msg : string)
  | NotADirectoryError (msg : string)
  | ValueError (msg : string)
  | KeyError (key : string)
  | AttributeError (ty attr : string)
  | LibraryError (cls msg : string)   (* raised inside torch or safetensors *)
  | SystemExit (code : Z).            (* argparse's exit; not an [Exception] *)

(** [repr] of a key that holds no quote character. *)
Definition repr_str (s : string) : string := "'" +:+ s +:+ "'".

(** [str(e)] *)
Definition str_exn (e : exn) : string :=
  match e with
  | FileNotFoundError msg => msg
  | IsADirectoryError msg => msg
  | NotADirectoryError msg => msg
  | ValueError msg => msg
  | KeyError key => repr_str key
  | AttributeError ty attr =>
      "'" +:+ ty +:+ "' object has no attribute '" +:+ attr +:+ "'"
  | LibraryError _ msg => msg
  | SystemExit code => pretty code
  end.

(** [isinstance(e, Exception)]: what [except Exception] catches. *)
Definition is_Exception (e : exn) : bool :=
  match e with SystemExit _ => false | _ => true end.

(** ** Strings and paths *)

(** [s.endswith(suffix)] *)
Definition endswith (s suffix : string) : bool :=
  let n := String.length s in
  let k := String.length suffix in
  (k <=? n)%nat && String.eqb (String.substring (n - k) k s) suffix.

(** [s[:-3]]: all but the last three characters; empty when [s] has fewer
    than three. *)
Definition drop_last3 (s : string) : string :=
  String.substring 0 (String.length s - 3) s.

(** [os.path.join(a, b)] on POSIX. *)
Definition os_path_join (a b : string) : string :=
  if String.prefix "/" b then b
  else if bool_decide (a = EmptyString) || endswith a "/" then a +:+ b
  else a +:+ "/" +:+ b.

(** ** The world: file system and standard output *)

Inductive node :=
  | File (content : list byte)
  | Dir (entries : list string).     (* names, in the order [os.listdir] gives *)

(** One printed line: the literal parts of the f-string and the values
    interpolated into it. *)
Inductive frag :=
  | Lit (s : string)
  | Fmt (v : pyval)
  | FmtShape (shape : list N).

Abbreviation line := (list frag).

Record world := World {
  fs : gmap string node;
  out : list line
}.

(** ** Computations that print, write files and raise *)

Inductive result (A : Type) :=
  | Ok (a : A)
  | Raise (e : exn).
Arguments Ok {A} a.
Arguments Raise {A} e.

Definition io (A : Type) : Type := world → result A * world.

Definition ret {A} (a : A) : io A := λ w, (Ok a, w).

Definition raise {A} (e : exn) : io A := λ w, (Raise e, w).

Definition bind {A B} (m : io A) (k : A → io B) : io B :=
  λ w, match m w with
       | (Ok a, w') => k a w'
       | (Raise e, w') => (Raise e, w')
       end.

Declare Scope io_scope.
Delimit Scope io_scope with io.
Notation "x <- m ;; k" := (bind m (λ x, k))
  (at level 100, m at next level, right associativity) : io_scope.
Notation "m ;; k" := (bind m (λ _, k))
  (at level 100, right associativity) : io_scope.
Open Scope io_scope.

(** [print(l)] *)
Definition print (l : line) : io unit :=
  λ w, (Ok tt, World (fs w) (out w ++ [l])).

(** [if b: body] *)
Definition when (b : bool) (body : io unit) : io unit :=
  if b then body else ret tt.

(** [for x in l: body(x)]: the first exception ends the loop. *)
Fixpoint for_each {A} (l : list A) (body : A → io unit) : io unit :=
  match l with
  | [] => ret tt
  | x :: l' => body x ;; for_each l' body
  end.

(** [try: body / except Exception as e: handler(e)] *)
Definition try_except {A} (body : io A) (handler : exn → io A) : io A :=
  λ w, match body w with
       | (Raise e, w') => if is_Exception e then handler e w' else (Raise e, w')
       | r => r
       end.

(** [a and b], where evaluating [b] may raise. *)
Definition and_then (a : bool) (b : io bool) : io bool :=
  if a then b else ret false.

(** ** The operating system *)

Definition os_path_exists (path : string) : io bool :=
  λ w, (Ok (bool_decide (is_Some (fs w !! path))), w).

Definition os_path_isdir (path : string) : io bool :=
  λ w, (Ok match fs w !! path with Some (Dir _) => true | _ => false end, w).

Definition os_path_isfile (path : string) : io bool :=
  λ w, (Ok match fs w !! path with Some (File _) => true | _ => false end, w).

(** The message of an [OSError] raised for [path]. *)
Definition os_error_msg (errno strerror path : string) : string :=
  "[Errno " +:+ errno +:+ "] " +:+ strerror +:+ ": " +:+ repr_str path.

(** [os.listdir(path)] *)
Definition os_listdir (path : string) : io (list string) :=
  λ w, match fs w !! path with
       | Some (Dir entries) => (Ok entries, w)
       | Some (File _) =>
           (Raise (NotADirectoryError (os_error_msg "20" "Not a directory" path)), w)
       | None =>
           (Raise (FileNotFoundError (os_error_msg "2" "No such file or directory" path)), w)
       end.

(** [open(path, 'rb').read()] *)
Definition read_file (path : string) : io (list byte) :=
  λ w, match fs w !! path with
       | Some (File content) => (Ok content, w)
       | Some (Dir _) =>
           (Raise (IsADirectoryError (os_error_msg "21" "Is a directory" path)), w)
       | None =>
           (Raise (FileNotFoundError (os_error_msg "2" "No such file or directory" path)), w)
       end.

(** Creating or truncating the file at [path] and writing [content] to it:
    a file already there is replaced, and a directory there is an error of
    the operating system.  Paths are plain names: links are not modelled. *)
Definition write_file (path : string) (content : list byte) : io unit :=
  λ w, match fs w !! path with
       | Some (Dir _) =>
           (Raise (IsADirectoryError (os_error_msg "21" "Is a directory" path)), w)
       | _ => (Ok tt, World (<[path := File content]> (fs w)) (out w))
       end.

(** ** Operations on Python values *)

(** [d[k]] on a dict. *)
Definition getitem (d : pydict) (k : string) : io pyval :=
  match d !! k with
  | Some v => ret v
  | None => raise (KeyError k)
  end.

(** [v.get(k)]: only a dict has the method. *)
Definition method_get (v : pyval) (k : string) : io pyval :=
  match v with
  | PDict d => ret (dict_get d k PNone)
  | _ => raise (AttributeError (type_name v) "get")
  end.

(** [v.shape]: only a tensor has the attribute. *)
Definition attr_shape (v : pyval) : io (list N) :=
  match v with
  | PTensor t => ret (tensor_shape t)
  | _ => raise (AttributeError (type_name v) "shape")
  end.

(** ** The script *)

(** [torch.load]'s decoding of a file's bytes into the checkpoint, a
    dictionary as both extractors are annotated ([Dict[str, Any]]);
    [save_file]'s encoding of what it is given; and the exception [save_file]
    raises when the file at a path cannot be created (safetensors reports the
    operating system's refusal as an error of its own).  Decoding and encoding
    may raise.  The script fixes none of the three: they are the interface to
    torch and safetensors. *)
Class Codec := {
  unpickle : list byte → result pydict;
  serialize : pyval → result (list byte);
  save_error : string → exn
}.

Section Converter.

Context `{Codec}.

Definition lift {A} (r : result A) : io A := λ w, (r, w).

(** [torch.load(file_path, map_location=device)] *)
Definition torch_load (file_path : string) : io pydict :=
  content <- read_file file_path ;;
  lift (unpickle content).

(** [save_file(tensors, filename)]: the encoding comes first, then the
    file is created and written; a refusal to create it is raised as the
    library's own error. *)
Definition save_file (tensors : pyval) (filename : string) : io unit :=
  content <- lift (serialize tensors) ;;
  λ w, match write_file filename content w with
       | (Raise _, w') => (Raise (save_error filename), w')
       | written => written
       end.

(** Lines 86-116. *)
Definition process_embedding_file (model : pydict) (verbose : bool) : io pyval :=
  model_tensors <- method_get (dict_get model "string_to_param" (PDict ∅)) "*" ;;
  let s_model := PDict {[ "emb_params" := model_tensors ]} in
  when verbose (
    named <- and_then (dict_contains model "sd_checkpoint_name")
               (v <- getitem model "sd_checkpoint_name" ;; ret (is_not_None v)) ;;
    (if named
     then v <- getitem model "sd_checkpoint_name" ;;
          print [Lit "Trained on "; Fmt v; Lit "."]
     else print [Lit "Checkpoint name not found in the model."]) ;;
    stepped <- and_then (dict_contains model "step")
                 (v <- getitem model "step" ;; ret (is_not_None v)) ;;
    (if stepped
     then v <- getitem model "step" ;;
          print [Lit "Trained for "; Fmt v; Lit " steps."]
     else print [Lit "Step not found in the model."]) ;;
    shape <- attr_shape model_tensors ;;
    print [Lit "Dimensions of embedding tensor: "; FmtShape shape] ;;
    print []
  ) ;;
  ret s_model.

(** Lines 119-142. *)
Definition process_vae_file (model : pydict) (verbose : bool) : io pyval :=
  s_model <- getitem model "state_dict" ;;
  when verbose (
    let step := dict_get model "step" (dict_get model "global_step" PNone) in
    (if is_not_None step
     then print [Lit "Trained for "; Fmt step; Lit " steps."]
     else print [Lit "Step not found in the model."]) ;;
    print []
  ) ;;
  ret s_model.

(** Lines 55-83. *)
Definition process_file (file_path model_type : string) (verbose : bool) : io unit :=
  model <- torch_load file_path ;;
  when verbose (print [Lit ("Processing file: " +:+ file_path)]) ;;
  s_model <-
    (if String.eqb model_type "embedding" then process_embedding_file model verbose
     else if String.eqb model_type "vae" then process_vae_file model verbose
     else raise (ValueError ("model_type `" +:+ model_type +:+ "` is not supported!"))) ;;
  let new_file_path := drop_last3 file_path +:+ ".safetensors" in
  save_file s_model new_file_path ;;
  print [Lit ("Saved converted file: " +:+ new_file_path)].

(** Lines 28-52. *)
Definition process_pt_files (path model_type : string) (verbose : bool) : io unit :=
  present <- os_path_exists path ;;
  if negb present
  then raise (FileNotFoundError ("The specified path does not exist: " +:+ path))
  else
    isdir <- os_path_isdir path ;;
    if isdir then
      names <- os_listdir path ;;
      for_each names (λ file_name,
        when (endswith file_name ".pt")
          (process_file (os_path_join path file_name) model_type verbose))
    else
      isfile <- os_path_isfile path ;;
      if isfile && endswith path ".pt"
      then process_file path model_type verbose
      else print [Lit (path +:+ " is not a valid directory or .pt file.")].

(** Lines 145-159, after [parse_args]: [model_type] outside [choices] makes
    argparse exit with status 2 before anything is processed. *)
Definition main (path model_type : string) (verbose : bool) : io unit :=
  if bool_decide (model_type ∈ ["embedding"; "vae"]) then
    try_except (process_pt_files path model_type verbose)
      (λ e, print [Lit ("An error occurred: " +:+ str_exn e)])
  else raise (SystemExit 2).

End Converter.

(** ** Sample checkpoints and a stand-in codec

    Concrete inputs on which the script is run below. *)

Definition emb_tensor : tensor := Tensor F32 [3%N; 4%N] (replicate 48 x00).
Definition encoder_weight : tensor := Tensor F32 [2%N; 2%N] (replicate 16 x01).
Definition decoder_bias : tensor := Tensor F16 [2%N] (replicate 4 x02).

(** An embedding checkpoint. *)
Definition emb_ckpt : pydict :=
  {[ "string_to_param" := PDict {[ "*" := PTensor emb_tensor ]};
     "sd_checkpoint_name" := PStr "v1-5-pruned";
     "step" := PInt 500 ]}.

(** A VAE checkpoint with [global_step] and no [step]. *)
Definition vae_ckpt : pydict :=
  {[ "state_dict" := PDict {[ "encoder.weight" := PTensor encoder_weight;
                              "decoder.bias" := PTensor decoder_bias ]};
     "global_step" := PInt 12 ]}.

(** A checkpoint with neither [string_to_param] nor [state_dict]. *)
Definition bare_ckpt : pydict := {[ "step" := PInt 7 ]}.

(** A VAE checkpoint with both [step] and [global_step]. *)
Definition both_steps_ckpt : pydict :=
  {[ "state_dict" := PDict ∅; "step" := PInt 500; "global_step" := PInt 12 ]}.

(** A VAE checkpoint whose [state_dict] holds a value that is no tensor. *)
Definition odd_vae_ckpt : pydict :=
  {[ "state_dict" := PDict {[ "encoder.weight" := PTensor encoder_weight;
                              "epoch" := PInt 3 ]} ]}.

Definition is_tensor (v : pyval) : bool :=
  match v with PTensor _ => true | _ => false end.

Definition payload (v : pyval) : list byte :=
  match v with PTensor t => tensor_data t | _ => [] end.

(** The stand-in: the first byte of a file selects one of the checkpoints
    above, and a dictionary of tensors is written as its payloads. *)
Definition sample_unpickle (content : list byte) : result pydict :=
  match content with
  | x01 :: _ => Ok emb_ckpt
  | x02 :: _ => Ok vae_ckpt
  | x03 :: _ => Ok bare_ckpt
  | x04 :: _ => Ok odd_vae_ckpt
  | _ => Raise (LibraryError "UnpicklingError" "invalid load key")
  end.

Definition sample_serialize (tensors : pyval) : result (list byte) :=
  match tensors with
  | PDict d =>
      if forallb (λ kv, is_tensor kv.2) (map_to_list d)
      then Ok (concat (map (λ kv, payload kv.2) (map_to_list d)))
      else Raise (ValueError "expected torch.Tensor")
  | _ => Raise (ValueError "expected a dict")
  end.

Definition sample_codec : Codec :=
  {| unpickle := sample_unpickle;
     serialize := sample_serialize;
     save_error := λ path,
       LibraryError "SafetensorError" ("Error while serializing: " +:+ path) |}.

(** A directory [ckpts] with a checkpoint lacking [state_dict], a VAE
    checkpoint, a text file and a subdirectory; a directory [vaes] with one
    VAE checkpoint, a text file and a subdirectory holding another. *)
Definition sample_fs : gmap string node :=
  {[ "ckpts" := Dir ["a.pt"; "notes.txt"; "b.pt"; "sub"];
     "ckpts/a.pt" := File [x03];
     "ckpts/notes.txt" := File [];
     "ckpts/b.pt" := File [x02];
     "ckpts/sub" := Dir ["c.pt"];
     "ckpts/sub/c.pt" := File [x02];
     "vaes" := Dir ["m.pt"; "readme.md"; "nested"];
     "vaes/m.pt" := File [x02];
     "vaes/readme.md" := File [];
     "vaes/nested" := Dir ["c.pt"];
     "vaes/nested/c.pt" := File [x02];
     "emb.pt" := File [x01];
     "emb.safetensors" := File [xff] ]}.

Definition sample_world : world := World sample_fs [].

(** ** Notions used in the statements *)

(** The steps metadata in the words of the specification: the value of
    [step] if that key is present, otherwise the value of [global_step] if
    present, otherwise absent. *)
Definition steps_spec (model : pydict) : option pyval :=
  match model !! "step" with
  | Some v => Some v
  | None => model !! "global_step"
  end.

(** The line the script prints for a steps value; [None] counts as absent. *)
Definition steps_line (steps : option pyval) : line :=
  match steps with
  | Some v =>
      if is_not_None v then [Lit "Trained for "; Fmt v; Lit " steps."]
      else [Lit "Step not found in the model."]
  | None => [Lit "Step not found in the model."]
  end.

(** A computation that only prints: its result and the lines it appends do
    not depend on the world, and the file system is left alone. *)
Definition prints_only {A} (m : io A) : Prop :=
  ∃ (r : result A) (lines : list line),
    ∀ w, m w = (r, World (fs w) (out w ++ lines)).

(** The line the script prints for a checkpoint name; [None] counts as
    absent. *)
Definition trained_on_line (name : option pyval) : line :=
  match name with
  | Some v =>
      if is_not_None v then [Lit "Trained on "; Fmt v; Lit "."]
      else [Lit "Checkpoint name not found in the model."]
  | None => [Lit "Checkpoint name not found in the model."]
  end.

(** *** Converting a directory, step by step

    The conversion in the steps the specification names: load the bytes of
    the file, decode them, extract with the chosen variant, encode, and write
    the result at the input path with its last three characters replaced. *)

(** What extraction makes of a checkpoint, and the lines it prints: the
    dispatch of lines 73-78, run where there is nothing to read. *)
Definition extract (model_type : string) (model : pydict) (verbose : bool)
    : result pyval * list line :=
  let run :=
    (if String.eqb model_type "embedding" then process_embedding_file model verbose
     else if String.eqb model_type "vae" then process_vae_file model verbose
     else raise (ValueError ("model_type `" +:+ model_type +:+ "` is not supported!")))
      (World ∅ []) in
  (run.1, out run.2).

(** One file: nothing is printed before the bytes are decoded, nothing is
    written unless every step succeeds, and then exactly one file is put at
    the output path. *)
Definition convert_file `{Codec} (file_path model_type : string) (verbose : bool)
    (w : world) : result unit * world :=
  match fs w !! file_path with
  | Some (File content) =>
      match unpickle content with
      | Ok model =>
          let progress :=
            if verbose then [[Lit ("Processing file: " +:+ file_path)]] else [] in
          let printed : list line :=
            (out w ++ progress ++ (extract model_type model verbose).2)%list in
          let new_file_path := drop_last3 file_path +:+ ".safetensors" in
          match (extract model_type model verbose).1 with
          | Ok s_model =>
              match serialize s_model with
              | Ok encoded =>
                  match fs w !! new_file_path with
                  | Some (Dir _) => (Raise (save_error new_file_path), World (fs w) printed)
                  | _ =>
                      (Ok tt,
                       World (<[new_file_path := File encoded]> (fs w))
                         (printed ++ [[Lit ("Saved converted file: " +:+ new_file_path)]]))
                  end
              | Raise e => (Raise e, World (fs w) printed)
              end
          | Raise e => (Raise e, World (fs w) printed)
          end
      | Raise e => (Raise e, w)
      end
  | Some (Dir _) =>
      (Raise (IsADirectoryError (os_error_msg "21" "Is a directory" file_path)), w)
  | None =>
      (Raise (FileNotFoundError (os_error_msg "2" "No such file or directory" file_path)), w)
  end.

(** The entries of a directory, in listing order: a name that does not end
    in ".pt" is passed over, whatever it names; a name that does is
    converted; the first conversion that fails is the end. *)
Fixpoint convert_entries `{Codec} (dir : string) (names : list string)
    (model_type : string) (verbose : bool) (w : world) : result unit * world :=
  match names with
  | [] => (Ok tt, w)
  | name :: rest =>
      if endswith name ".pt" then
        match convert_file (os_path_join dir name) model_type verbose w with
        | (Ok _, w') => convert_entries dir rest model_type verbose w'
        | (Raise e, w') => (Raise e, w')
        end
      else convert_entries dir rest model_type verbose w
  end.

(** An embedding checkpoint whose [string_to_param] is [None]. *)
Definition null_param_ckpt : pydict := {[ "string_to_param" := PNone ]}.

(** An embedding checkpoint whose ["*"] entry is an integer, with a
    [global_step] and a [step] of [None]. *)
Definition int_param_ckpt : pydict :=
  {[ "string_to_param" := PDict {[ "*" := PInt 7 ]};
     "step" := PNone;
     "global_step" := PInt 12 ]}.

(** A world whose directory [runs] lists a text file, a subdirectory named
    like a checkpoint, and a checkpoint. *)
Definition runs_world : world :=
  World {[ "runs" := Dir ["log.txt"; "epoch1.pt"; "final.pt"];
           "runs/log.txt" := File [];
           "runs/epoch1.pt" := Dir ["weights.pt"];
           "runs/epoch1.pt/weights.pt" := File [x02];
           "runs/final.pt" := File [x02] ]}
        [].

(** A world whose directory [docs] lists no ".pt" name. *)
Definition docs_world : world :=
  World {[ "docs" := Dir ["readme.md"; "model.safetensors"; "old"];
           "docs/readme.md" := File [];
           "docs/model.safetensors" := File [x00];
           "docs/old" := Dir ["m.pt"];
           "docs/old/m.pt" := File [x02] ]}
        [].

(** * Properties *)

(** ** Strings *)

Lemma string_length_app (s1 s2 : string) :
  String.length (s1 +:+ s2) = String.length s1 + String.length s2.
Proof. induction s1 as [|c s1 IH]; simpl; [done | by rewrite IH]. Qed.

Lemma substring_0_0 (s : string) : String.substring 0 0 s = EmptyString.
Proof. by destruct s. Qed.

(** Cutting [length ext] characters off the end of [stem ++ ext] leaves [stem]. *)
Lemma substring_stem (stem ext : string) :
  String.substring 0 (String.length (stem +:+ ext) - String.length ext) (stem +:+ ext)
  = stem.
Proof.
  induction stem as [|c stem IH]; simpl.
  - rewrite Nat.sub_diag. apply substring_0_0.
  - rewrite string_length_app in *.
    replace (S (String.length stem + String.length ext) - String.length ext)
      with (S (String.length stem + String.length ext - String.length ext)) by lia.
    simpl. by rewrite IH.
Qed.

Lemma drop_last3_app (stem ext : string) :
  String.length ext = 3 → drop_last3 (stem +:+ ext) = stem.
Proof. intros Hext. unfold drop_last3. rewrite <- Hext. apply substring_stem. Qed.

Lemma substring_0_length (n : nat) (t : string) :
  String.length (String.substring 0 n t) = n `min` String.length t.
Proof.
  revert t. induction n as [|n IH]; intros t.
  - by rewrite substring_0_0.
  - destruct t as [|c t]; simpl; [done | by rewrite IH].
Qed.

(** The length of [s[:-3]]. *)
Lemma drop_last3_length (s : string) :
  String.length (drop_last3 s) = String.length s - 3.
Proof. unfold drop_last3. rewrite substring_0_length. lia. Qed.

(** The output path is never the input path: it is longer. *)
Lemma new_file_path_neq (file_path : string) :
  drop_last3 file_path +:+ ".safetensors" ≠ file_path.
Proof.
  intros Heq. apply (f_equal String.length) in Heq.
  rewrite string_length_app, drop_last3_length in Heq. simpl in Heq. lia.
Qed.

(** ** Loops *)

Lemma for_each_when_filter {A} (p : A → bool) (body : A → io unit) (l : list A) (w : world) :
  for_each l (λ x, when (p x) (body x)) w = for_each (List.filter p l) body w.
Proof.
  revert w. induction l as [|x l IH]; intros w; simpl; [done |].
  destruct (p x); simpl; unfold bind; simpl.
  - destruct (body x w) as [[[]|e] w']; [apply IH | done].
  - apply IH.
Qed.

Lemma for_each_app {A} (body : A → io unit) (l1 l2 : list A) (w w1 : world) :
  for_each l1 body w = (Ok tt, w1) →
  for_each (l1 ++ l2) body w = for_each l2 body w1.
Proof.
  revert w. induction l1 as [|x l1 IH]; intros w; simpl.
  - unfold ret. by intros [= <-].
  - unfold bind. destruct (body x w) as [[[]|e] w']; [apply IH | done].
Qed.

(** The first exception ends the loop: what follows in the list has no
    bearing on the outcome. *)
Lemma for_each_raise {A} (body : A → io unit) (l1 l2 : list A) (x : A)
    (w w1 w2 : world) (e : exn) :
  for_each l1 body w = (Ok tt, w1) →
  body x w1 = (Raise e, w2) →
  for_each (l1 ++ x :: l2) body w = (Raise e, w2).
Proof.
  intros Hdone Hx. rewrite (for_each_app _ _ _ _ _ Hdone). simpl.
  unfold bind. by rewrite Hx.
Qed.

(** ** Computations that only print *)

Lemma world_out_nil (w : world) : World (fs w) (out w ++ []) = w.
Proof. destruct w; simpl. by rewrite app_nil_r. Qed.

Lemma prints_only_ret {A} (a : A) : prints_only (ret a).
Proof. exists (Ok a), []. intros w. unfold ret. by rewrite world_out_nil. Qed.

Lemma prints_only_raise {A} (e : exn) : prints_only (raise (A:=A) e).
Proof. exists (Raise e), []. intros w. unfold raise. by rewrite world_out_nil. Qed.

Lemma prints_only_print (l : line) : prints_only (print l).
Proof. by exists (Ok tt), [l]. Qed.

Lemma prints_only_bind {A B} (m : io A) (k : A → io B) :
  prints_only m → (∀ a, prints_only (k a)) → prints_only (bind m k).
Proof.
  intros (r & lines & Hm) Hk. destruct r as [a|e].
  - destruct (Hk a) as (r' & lines' & Hka).
    exists r', (lines ++ lines')%list. intros w. unfold bind.
    rewrite Hm, Hka. simpl. by rewrite app_assoc.
  - exists (Raise e), lines. intros w. unfold bind. by rewrite Hm.
Qed.

Lemma prints_only_when (b : bool) (body : io unit) :
  prints_only body → prints_only (when b body).
Proof. destruct b; simpl; [done | intros _; apply prints_only_ret]. Qed.

Lemma prints_only_getitem (d : pydict) (k : string) : prints_only (getitem d k).
Proof.
  unfold getitem. destruct (d !! k); [apply prints_only_ret | apply prints_only_raise].
Qed.

Lemma prints_only_method_get (v : pyval) (k : string) : prints_only (method_get v k).
Proof. destruct v; simpl; (apply prints_only_ret || apply prints_only_raise). Qed.

Lemma prints_only_attr_shape (v : pyval) : prints_only (attr_shape v).
Proof. destruct v; simpl; (apply prints_only_ret || apply prints_only_raise). Qed.

Lemma prints_only_and_then (a : bool) (b : io bool) :
  prints_only b → prints_only (and_then a b).
Proof. destruct a; simpl; [done | intros _; apply prints_only_ret]. Qed.

Create HintDb prints discriminated.
#[local] Hint Resolve prints_only_ret prints_only_raise prints_only_print
  prints_only_getitem prints_only_method_get prints_only_attr_shape : prints.

Ltac prints_only_step :=
  first
    [ apply prints_only_bind; [| intros ?]
    | apply prints_only_when
    | apply prints_only_and_then
    | solve [auto with prints]
    | match goal with
      | |- prints_only (if ?b then _ else _) => destruct b
      | |- prints_only (let _ := _ in _) => cbv zeta
      end ].

Lemma prints_only_process_embedding_file (model : pydict) (verbose : bool) :
  prints_only (process_embedding_file model verbose).
Proof. unfold process_embedding_file. repeat prints_only_step. Qed.

Lemma prints_only_process_vae_file (model : pydict) (verbose : bool) :
  prints_only (process_vae_file model verbose).
Proof. unfold process_vae_file. repeat prints_only_step. Qed.

(** ** Extraction *)

Lemma dict_contains_Some (d : pydict) (k : string) (v : pyval) :
  d !! k = Some v → dict_contains d k = true.
Proof. intros Hk. unfold dict_contains. apply bool_decide_eq_true. by rewrite Hk. Qed.

Lemma dict_contains_None (d : pydict) (k : string) :
  d !! k = None → dict_contains d k = false.
Proof.
  intros Hk. unfold dict_contains. apply bool_decide_eq_false.
  rewrite Hk. by intros [? ?].
Qed.

(** The guarded print of lines 103-106 and 108-111 always succeeds and
    appends one line, after which the rest runs. *)
Lemma guarded_print (model : pydict) (k : string) (found : pyval → line)
    (missing : line) :
  ∃ l, ∀ (B : Type) (rest : io B) (w : world),
    (present <- and_then (dict_contains model k)
                  (v <- getitem model k ;; ret (is_not_None v)) ;;
     (if present then v <- getitem model k ;; print (found v)
      else print missing) ;;
     rest) w
    = rest (World (fs w) (out w ++ [l])).
Proof.
  destruct (model !! k) as [v|] eqn:Hk.
  - destruct (is_not_None v) eqn:Hv.
    + exists (found v). intros B rest w.
      rewrite (dict_contains_Some _ _ _ Hk). unfold getitem. rewrite Hk.
      unfold and_then, bind, ret, print. by rewrite Hv.
    + exists missing. intros B rest w.
      rewrite (dict_contains_Some _ _ _ Hk). unfold getitem. rewrite Hk.
      unfold and_then, bind, ret, print. by rewrite Hv.
  - exists missing. intros B rest w. by rewrite (dict_contains_None _ _ Hk).
Qed.

(** C4: an embedding checkpoint whose [string_to_param] mapping holds a
    tensor under ["*"] is extracted, whether verbose or not, to the
    dictionary with the single entry [emb_params], bound to that very tensor
    (same dtype, shape and data); extraction touches no file. *)
Theorem embedding_extraction (model sp : pydict) (t : tensor) (verbose : bool)
    (w : world) :
  model !! "string_to_param" = Some (PDict sp) →
  sp !! "*" = Some (PTensor t) →
  ∃ lines,
    process_embedding_file model verbose w
    = (Ok (PDict {[ "emb_params" := PTensor t ]}), World (fs w) (out w ++ lines)).
Proof.
  intros Hsp Hstar. unfold process_embedding_file.
  unfold dict_get at 1. rewrite Hsp. unfold method_get, dict_get. rewrite Hstar.
  destruct verbose; simpl when.
  - destruct (guarded_print model "sd_checkpoint_name"
                (λ v, [Lit "Trained on "; Fmt v; Lit "."])
                [Lit "Checkpoint name not found in the model."]) as [l1 H1].
    destruct (guarded_print model "step"
                (λ v, [Lit "Trained for "; Fmt v; Lit " steps."])
                [Lit "Step not found in the model."]) as [l2 H2].
    exists [l1; l2;
            [Lit "Dimensions of embedding tensor: "; FmtShape (tensor_shape t)]; []].
    unfold bind at 1. unfold ret at 1. unfold bind at 1.
    rewrite H1, H2. simpl. by rewrite <- !app_assoc.
  - exists []. unfold bind, ret. by rewrite world_out_nil.
Qed.

Lemma vae_steps_value (model : pydict) :
  dict_get model "step" (dict_get model "global_step" PNone)
  = default PNone (steps_spec model).
Proof.
  unfold dict_get, steps_spec.
  destruct (model !! "step"); [done |]. by destruct (model !! "global_step").
Qed.

(** What [process_vae_file] does when [state_dict] is present. *)
Lemma process_vae_file_present (model : pydict) (state_dict : pyval)
    (verbose : bool) (w : world) :
  model !! "state_dict" = Some state_dict →
  process_vae_file model verbose w
  = (Ok state_dict,
     World (fs w)
       (out w ++ if verbose then [steps_line (steps_spec model); []] else [])).
Proof.
  intros Hsd. unfold process_vae_file, getitem. rewrite Hsd.
  destruct verbose; simpl when.
  - rewrite vae_steps_value. unfold steps_line.
    destruct (steps_spec model) as [v|]; simpl.
    + destruct (is_not_None v); unfold bind, ret, print; simpl;
        by rewrite <- app_assoc.
    + unfold bind, ret, print; simpl. by rewrite <- app_assoc.
  - unfold bind, ret. by rewrite world_out_nil.
Qed.

(** C5: a VAE checkpoint holding [state_dict] is extracted, whether verbose
    or not, to the value of [state_dict] itself: every name and every value
    as it is in the checkpoint, nothing added, dropped or renamed; extraction
    touches no file. *)
Theorem vae_extraction (model : pydict) (state_dict : pyval) (verbose : bool)
    (w : world) :
  model !! "state_dict" = Some state_dict →
  ∃ lines,
    process_vae_file model verbose w
    = (Ok state_dict, World (fs w) (out w ++ lines)).
Proof. intros Hsd. eexists. by apply process_vae_file_present. Qed.

(** C6: the steps value a verbose VAE extraction reports is the one the
    specification names: [step] when that key is present, otherwise
    [global_step] when present, otherwise none.  The presence of the key
    decides, so [step] wins whenever both keys are present. *)
Theorem vae_steps_first_present (model : pydict) (state_dict : pyval) (w : world) :
  model !! "state_dict" = Some state_dict →
  process_vae_file model true w
  = (Ok state_dict,
     World (fs w) (out w ++ [steps_line (steps_spec model); []]))
  ∧ dict_get model "step" (dict_get model "global_step" PNone)
    = default PNone (steps_spec model)
  ∧ (∀ v g, model !! "step" = Some v → model !! "global_step" = Some g →
       steps_spec model = Some v).
Proof.
  intros Hsd. split; [| split].
  - by rewrite (process_vae_file_present _ _ true w Hsd).
  - apply vae_steps_value.
  - intros v g Hstep _. unfold steps_spec. by rewrite Hstep.
Qed.

(** C3, as the script has it: a VAE checkpoint without the key
    [state_dict] raises [KeyError('state_dict')] before anything is printed;
    an embedding checkpoint without [string_to_param], or without ["*"] in
    it, raises nothing when extracted quietly, and yields the single entry
    [emb_params] bound to [None]. *)
Theorem missing_root_field (model : pydict) (w : world) :
  (model !! "state_dict" = None →
   ∀ verbose, process_vae_file model verbose w = (Raise (KeyError "state_dict"), w))
  ∧ (model !! "string_to_param" = None
     ∨ (∃ sp, model !! "string_to_param" = Some (PDict sp) ∧ sp !! "*" = None) →
     process_embedding_file model false w
     = (Ok (PDict {[ "emb_params" := PNone ]}), w)).
Proof.
  split.
  - intros Hsd verbose. unfold process_vae_file, getitem. by rewrite Hsd.
  - intros [Hsp|(sp & Hsp & Hstar)]; unfold process_embedding_file;
      unfold dict_get at 1; rewrite Hsp; unfold method_get, dict_get.
    + by rewrite lookup_empty.
    + by rewrite Hstar.
Qed.

(** With [verbose] on, the same embedding checkpoint fails at line 113, on
    the [shape] of [None], after the two metadata lines. *)
Lemma embedding_missing_verbose (model : pydict) (w : world) :
  model !! "string_to_param" = None →
  ∃ l1 l2,
    process_embedding_file model true w
    = (Raise (AttributeError "NoneType" "shape"),
       World (fs w) (out w ++ [l1; l2])).
Proof.
  intros Hsp. unfold process_embedding_file.
  unfold dict_get at 1. rewrite Hsp. unfold method_get, dict_get.
  rewrite lookup_empty. simpl when.
  destruct (guarded_print model "sd_checkpoint_name"
              (λ v, [Lit "Trained on "; Fmt v; Lit "."])
              [Lit "Checkpoint name not found in the model."]) as [l1 H1].
  destruct (guarded_print model "step"
              (λ v, [Lit "Trained for "; Fmt v; Lit " steps."])
              [Lit "Step not found in the model."]) as [l2 H2].
  exists l1, l2.
  unfold bind at 1. unfold ret at 1. unfold bind at 1.
  rewrite H1, H2. simpl. by rewrite <- !app_assoc.
Qed.

(** C7, as the script has it: a VAE checkpoint whose [state_dict] holds a
    value that is no tensor is extracted without any exception: the
    dictionary comes back as it is, that entry included.  The script checks
    no value of [state_dict]. *)
Theorem vae_extraction_unchecked (model d : pydict) (name : string) (v : pyval)
    (verbose : bool) (w : world) :
  model !! "state_dict" = Some (PDict d) →
  d !! name = Some v →
  is_tensor v = false →
  ∃ lines,
    process_vae_file model verbose w
    = (Ok (PDict d), World (fs w) (out w ++ lines)).
Proof. intros Hsd _ _. eexists. by apply process_vae_file_present. Qed.

Section Properties.

Context `{Codec}.

(** ** Loading *)

(** When [torch.load] raises, [process_file] raises the same exception
    and leaves the world as it was: nothing printed, nothing written. *)
Lemma process_file_load_failure (file_path model_type : string) (verbose : bool)
    (w w' : world) (e : exn) :
  torch_load file_path w = (Raise e, w') →
  process_file file_path model_type verbose w = (Raise e, w) ∧ w' = w.
Proof.
  unfold process_file. unfold bind at 1. intros Hload. rewrite Hload.
  assert (w' = w) as ->; [| done].
  revert Hload. unfold torch_load, bind, read_file, lift.
  destruct (fs w !! file_path) as [[content|entries]|]; by intros [= _ <-].
Qed.

(** [torch.load] reads the world and never changes it. *)
Lemma torch_load_world (file_path : string) (w w' : world) (r : result pydict) :
  torch_load file_path w = (r, w') → w' = w.
Proof.
  unfold torch_load, bind, read_file, lift.
  destruct (fs w !! file_path) as [[content|entries]|]; by intros [= _ <-].
Qed.


(** [torch.load] looks at the file system only at [file_path]. *)
Lemma torch_load_lookup (file_path : string) (f1 f2 : gmap string node)
    (o1 o2 : list line) :
  f1 !! file_path = f2 !! file_path →
  (torch_load file_path (World f1 o1)).1 = (torch_load file_path (World f2 o2)).1.
Proof.
  intros Heq. unfold torch_load, bind, read_file, lift. simpl. rewrite Heq.
  by destruct (f2 !! file_path) as [[content|entries]|].
Qed.

(** Running a computation that only prints, then the rest. *)
Lemma bind_prints_only {A B} (m : io A) (k : A → io B) :
  prints_only m →
  ∃ r lines, ∀ w,
    bind m k w
    = match r with
      | Ok a => k a (World (fs w) (out w ++ lines))
      | Raise e => (Raise e, World (fs w) (out w ++ lines))
      end.
Proof.
  intros (r & lines & Hm). exists r, lines. intros w.
  unfold bind. rewrite Hm. by destruct r.
Qed.

(** ** Dispatch on the model type *)

(** C8: with a model type that is neither "embedding" nor "vae",
    [process_file] always fails and writes nothing; once the file has
    loaded, the failure is the [ValueError] of line 78, whatever the
    checkpoint holds: neither extractor runs. *)
Theorem unsupported_model_type (file_path model_type : string) (verbose : bool)
    (w : world) :
  model_type ≠ "embedding" →
  model_type ≠ "vae" →
  (∀ model, torch_load file_path w = (Ok model, w) →
     process_file file_path model_type verbose w
     = (Raise (ValueError ("model_type `" +:+ model_type +:+ "` is not supported!")),
        World (fs w)
          (out w ++ if verbose then [[Lit ("Processing file: " +:+ file_path)]]
                    else [])))
  ∧ (∃ e w', process_file file_path model_type verbose w = (Raise e, w')
             ∧ fs w' = fs w).
Proof.
  intros Hemb Hvae.
  assert (Hrun : ∀ model, torch_load file_path w = (Ok model, w) →
     process_file file_path model_type verbose w
     = (Raise (ValueError ("model_type `" +:+ model_type +:+ "` is not supported!")),
        World (fs w)
          (out w ++ if verbose then [[Lit ("Processing file: " +:+ file_path)]]
                    else []))).
  { intros model Hload. unfold process_file. unfold bind at 1. rewrite Hload.
    apply String.eqb_neq in Hemb, Hvae. rewrite Hemb, Hvae.
    destruct verbose; simpl when; unfold bind, raise, print, ret; simpl; [done |].
    by rewrite world_out_nil. }
  split; [exact Hrun |].
  destruct (torch_load file_path w) as [[model|e] w1] eqn:Hload.
  - assert (w1 = w) as -> by (by eapply torch_load_world).
    eexists _, _. split; [by apply (Hrun model) | done].
  - destruct (process_file_load_failure file_path model_type verbose _ _ _ Hload)
      as [Hfail _].
    by exists e, w.
Qed.

(** ** Saving *)

(** A successful conversion, seen from the file system: the output is put
    at [file_path[:-3] + '.safetensors'], and the same run succeeds in the
    same way on any file system that agrees on [file_path] and has no
    directory at the output path. *)
Lemma process_file_success (file_path model_type : string) (verbose : bool)
    (f : gmap string node) (o : list line) (w' : world) :
  process_file file_path model_type verbose (World f o) = (Ok tt, w') →
  ∃ content lines,
    w' = World (<[drop_last3 file_path +:+ ".safetensors" := File content]> f)
           (o ++ lines ++
            [[Lit ("Saved converted file: " +:+ drop_last3 file_path +:+ ".safetensors")]])
    ∧ ∀ f2 : gmap string node,
        f2 !! file_path = f !! file_path →
        (∀ entries, f2 !! (drop_last3 file_path +:+ ".safetensors")
                    ≠ Some (Dir entries)) →
        process_file file_path model_type verbose (World f2 o)
        = (Ok tt,
           World (<[drop_last3 file_path +:+ ".safetensors" := File content]> f2)
             (o ++ lines ++
              [[Lit ("Saved converted file: " +:+ drop_last3 file_path +:+ ".safetensors")]])).
Proof.
  unfold process_file. set (target := drop_last3 file_path +:+ ".safetensors").
  set (branch := λ model : pydict,
    if String.eqb model_type "embedding" then process_embedding_file model verbose
    else if String.eqb model_type "vae" then process_vae_file model verbose
    else raise (ValueError ("model_type `" +:+ model_type +:+ "` is not supported!"))).
  intros Hrun. unfold bind at 1 in Hrun.
  destruct (torch_load file_path (World f o)) as [[model|e] w1] eqn:Hload;
    [| done].
  assert (w1 = World f o) as -> by (by eapply torch_load_world).
  destruct (bind_prints_only
              (when verbose (print [Lit ("Processing file: " +:+ file_path)]))
              (λ _, s_model <- branch model ;;
                    save_file s_model target ;;
                    print [Lit ("Saved converted file: " +:+ target)]))
    as (r1 & l1 & H1).
  { apply prints_only_when, prints_only_print. }
  assert (Hbranch : prints_only (branch model)).
  { unfold branch. destruct (String.eqb model_type "embedding");
      [apply prints_only_process_embedding_file |].
    destruct (String.eqb model_type "vae");
      [apply prints_only_process_vae_file | apply prints_only_raise]. }
  destruct (bind_prints_only (branch model)
              (λ s_model, save_file s_model target ;;
                          print [Lit ("Saved converted file: " +:+ target)])
              Hbranch) as (r2 & l2 & H2).
  rewrite H1 in Hrun. destruct r1 as [[]|e1]; [| done].
  rewrite H2 in Hrun. destruct r2 as [s_model|e2]; [| done].
  simpl in Hrun. unfold save_file, bind, lift, write_file, print in Hrun.
  simpl in Hrun.
  destruct (serialize s_model) as [content|e3] eqn:Hser; [| done].
  exists content, (l1 ++ l2)%list.
  split.
  - destruct (f !! target) as [[c0|entries]|]; [| done |];
      injection Hrun as <-; simpl; by rewrite <- !app_assoc.
  - intros f2 Hsame Hnodir. unfold bind at 1.
    pose proof (torch_load_lookup file_path f2 f o o Hsame) as Hfst.
    rewrite Hload in Hfst. simpl in Hfst.
    destruct (torch_load file_path (World f2 o)) as [r0 w2] eqn:Hload2.
    simpl in Hfst. subst r0.
    assert (w2 = World f2 o) as -> by (by eapply torch_load_world).
    rewrite H1, H2. simpl.
    unfold save_file, bind, lift, write_file, print. simpl. rewrite Hser.
    destruct (f2 !! target) as [[c0|entries]|] eqn:Ht;
      [| by destruct (Hnodir entries) |]; simpl; by rewrite <- !app_assoc.
Qed.

(** C9: a successful conversion writes its output at the input path with
    the last three characters (".pt" for every file the driver picks)
    replaced by ".safetensors"; whatever file was at that path is replaced,
    and a file already there changes neither the outcome nor the final
    world: nothing checks for a collision. *)
Theorem output_path_overwrite (file_path model_type : string) (verbose : bool)
    (w w' : world) :
  process_file file_path model_type verbose w = (Ok tt, w') →
  let new_file_path := drop_last3 file_path +:+ ".safetensors" in
  (∃ content, fs w' = <[new_file_path := File content]> (fs w)
              ∧ last (out w') = Some [Lit ("Saved converted file: " +:+ new_file_path)])
  ∧ (∀ stem ext, file_path = stem +:+ ext → String.length ext = 3 →
       new_file_path = stem +:+ ".safetensors")
  ∧ (∀ old, process_file file_path model_type verbose
              (World (<[new_file_path := File old]> (fs w)) (out w))
            = (Ok tt, w')).
Proof.
  destruct w as [f o]. intros Hrun new_file_path. simpl.
  destruct (process_file_success _ _ _ _ _ _ Hrun)
    as (content & lines & -> & Hother).
  split; [| split].
  - exists content. split; [done |]. simpl.
    by rewrite !app_assoc, last_snoc.
  - intros stem ext -> Hext. unfold new_file_path. by rewrite drop_last3_app.
  - intros old. rewrite Hother.
    + by rewrite insert_insert_eq.
    + apply lookup_insert_ne, new_file_path_neq.
    + intros entries. by rewrite lookup_insert_eq.
Qed.

(** ** The driver *)

(** On a directory, the driver is the loop over the listed names that end
    in ".pt", in listing order. *)
Lemma process_pt_files_dir (path model_type : string) (verbose : bool)
    (w : world) (entries : list string) :
  fs w !! path = Some (Dir entries) →
  process_pt_files path model_type verbose w
  = for_each (List.filter (λ name, endswith name ".pt") entries)
      (λ name, process_file (os_path_join path name) model_type verbose) w.
Proof.
  intros Hdir. unfold process_pt_files.
  unfold bind at 1. unfold os_path_exists. cbv beta.
  rewrite bool_decide_eq_true_2 by (by rewrite Hdir). cbn [negb]. cbv iota.
  unfold bind at 1. unfold os_path_isdir. cbv beta. rewrite Hdir. cbv iota.
  unfold bind at 1. unfold os_listdir. cbv beta. rewrite Hdir. cbv iota.
  apply (for_each_when_filter (λ name, endswith name ".pt")).
Qed.

(** C2, as the script has it: the first conversion that fails in a
    directory ends the batch.  The exception leaves the loop and
    [process_pt_files]; [main] catches it and prints one line built from
    [str(e)] alone.  The names after the failing one are not processed (the
    outcome does not depend on them); what was converted before stays. *)
Theorem batch_stops_at_first_failure (path model_type : string) (verbose : bool)
    (w w1 w2 : world) (entries before rest : list string) (name : string) (e : exn) :
  model_type ∈ ["embedding"; "vae"] →
  fs w !! path = Some (Dir entries) →
  List.filter (λ name, endswith name ".pt") entries = (before ++ name :: rest)%list →
  for_each before
    (λ name, process_file (os_path_join path name) model_type verbose) w
  = (Ok tt, w1) →
  process_file (os_path_join path name) model_type verbose w1 = (Raise e, w2) →
  is_Exception e = true →
  process_pt_files path model_type verbose w = (Raise e, w2)
  ∧ main path model_type verbose w
    = (Ok tt,
       World (fs w2) (out w2 ++ [[Lit ("An error occurred: " +:+ str_exn e)]])).
Proof.
  intros Hchoice Hdir Hpt Hdone Hfail Hexn.
  assert (Hbatch : process_pt_files path model_type verbose w = (Raise e, w2)).
  { rewrite (process_pt_files_dir _ _ _ _ _ Hdir), Hpt.
    by apply (for_each_raise _ before rest name w w1 w2 e). }
  split; [done |].
  unfold main. rewrite bool_decide_eq_true_2 by done.
  unfold try_except. by rewrite Hbatch, Hexn.
Qed.

End Properties.

(** * The script on the sample inputs *)

(** The embedding example of the specification: a 3x4 float32 tensor under
    [string_to_param] and [step = 500]. *)
Example embedding_sample_run :
  process_embedding_file emb_ckpt true (World ∅ [])
  = (Ok (PDict {[ "emb_params" := PTensor emb_tensor ]}),
     World ∅
       [[Lit "Trained on "; Fmt (PStr "v1-5-pruned"); Lit "."];
        [Lit "Trained for "; Fmt (PInt 500); Lit " steps."];
        [Lit "Dimensions of embedding tensor: "; FmtShape [3%N; 4%N]];
        []]).
Proof. reflexivity. Qed.

(** The autoencoder example of the specification: two tensors, no [step],
    [global_step = 12]. *)
Example vae_sample_run :
  process_vae_file vae_ckpt true (World ∅ [])
  = (Ok (PDict {[ "encoder.weight" := PTensor encoder_weight;
                  "decoder.bias" := PTensor decoder_bias ]}),
     World ∅ [[Lit "Trained for "; Fmt (PInt 12); Lit " steps."]; []]).
Proof. reflexivity. Qed.

(** The driver on [vaes]: [m.pt] is converted, [readme.md] is passed over
    in silence, and [nested/c.pt] is not reached. *)
Example directory_sample_run :
  ∃ w', main (H:=sample_codec) "vaes" "vae" false sample_world = (Ok tt, w')
        ∧ out w' = [[Lit "Saved converted file: vaes/m.safetensors"]]
        ∧ fs w' = <["vaes/m.safetensors" :=
                     File (replicate 16 x01 ++ replicate 4 x02)]> (fs sample_world)
        ∧ fs w' !! "vaes/nested/c.safetensors" = None.
Proof. eexists. repeat split; reflexivity. Qed.

Lemma embedding_extraction_witness :
  emb_ckpt !! "string_to_param" = Some (PDict {[ "*" := PTensor emb_tensor ]})
  ∧ ({[ "*" := PTensor emb_tensor ]} : pydict) !! "*" = Some (PTensor emb_tensor)
  ∧ ∃ lines,
      process_embedding_file emb_ckpt true sample_world
      = (Ok (PDict {[ "emb_params" := PTensor emb_tensor ]}),
         World (fs sample_world) (out sample_world ++ lines)).
Proof.
  split; [reflexivity |]. split; [reflexivity |].
  apply (embedding_extraction emb_ckpt {[ "*" := PTensor emb_tensor ]} emb_tensor
           true sample_world); reflexivity.
Defined.

Lemma vae_extraction_witness :
  ∃ lines,
    process_vae_file vae_ckpt false sample_world
    = (Ok (PDict {[ "encoder.weight" := PTensor encoder_weight;
                    "decoder.bias" := PTensor decoder_bias ]}),
       World (fs sample_world) (out sample_world ++ lines)).
Proof.
  apply (vae_extraction vae_ckpt
           (PDict {[ "encoder.weight" := PTensor encoder_weight;
                     "decoder.bias" := PTensor decoder_bias ]})
           false sample_world).
  reflexivity.
Defined.

Lemma vae_steps_first_present_witness :
  process_vae_file both_steps_ckpt true sample_world
  = (Ok (PDict ∅),
     World (fs sample_world)
       (out sample_world ++ [[Lit "Trained for "; Fmt (PInt 500); Lit " steps."]; []])).
Proof.
  destruct (vae_steps_first_present both_steps_ckpt (PDict ∅) sample_world)
    as [Hrun _]; [reflexivity | exact Hrun].
Defined.

Lemma missing_root_field_witness :
  (∀ verbose,
     process_vae_file bare_ckpt verbose sample_world
     = (Raise (KeyError "state_dict"), sample_world))
  ∧ process_embedding_file bare_ckpt false sample_world
    = (Ok (PDict {[ "emb_params" := PNone ]}), sample_world).
Proof.
  destruct (missing_root_field bare_ckpt sample_world) as [Hvae Hemb].
  split; [apply Hvae; reflexivity | apply Hemb; left; reflexivity].
Defined.

(** C3 fails for the embedding variant: a checkpoint without
    [string_to_param] is extracted without any exception. *)
Lemma embedding_missing_field_counterexample :
  bare_ckpt !! "string_to_param" = None
  ∧ ¬ (∃ e w', process_embedding_file bare_ckpt false sample_world = (Raise e, w')).
Proof.
  split; [reflexivity |]. intros (e & w' & Hrun). vm_compute in Hrun. discriminate.
Qed.

Lemma vae_extraction_unchecked_witness :
  ∃ lines,
    process_vae_file odd_vae_ckpt true sample_world
    = (Ok (PDict {[ "encoder.weight" := PTensor encoder_weight;
                    "epoch" := PInt 3 ]}),
       World (fs sample_world) (out sample_world ++ lines)).
Proof.
  apply (vae_extraction_unchecked odd_vae_ckpt _ "epoch" (PInt 3) true sample_world);
    reflexivity.
Defined.

(** C7 fails: [state_dict] holds the integer 3 under "epoch", and
    extraction returns it with the rest instead of raising. *)
Lemma non_tensor_entry_counterexample :
  ∃ d, odd_vae_ckpt !! "state_dict" = Some (PDict d)
       ∧ d !! "epoch" = Some (PInt 3)
       ∧ is_tensor (PInt 3) = false
       ∧ process_vae_file odd_vae_ckpt false sample_world = (Ok (PDict d), sample_world).
Proof.
  exists {[ "encoder.weight" := PTensor encoder_weight; "epoch" := PInt 3 ]}.
  repeat split; reflexivity.
Qed.

Lemma unsupported_model_type_witness :
  process_file (H:=sample_codec) "emb.pt" "lora" true sample_world
  = (Raise (ValueError "model_type `lora` is not supported!"),
     World (fs sample_world) [[Lit "Processing file: emb.pt"]]).
Proof.
  destruct (unsupported_model_type (H:=sample_codec) "emb.pt" "lora" true sample_world)
    as [Hrun _]; [discriminate | discriminate |].
  apply (Hrun emb_ckpt). reflexivity.
Defined.

(** C9 on [emb.pt]: a file [emb.safetensors] is already there, and is
    replaced. *)
Lemma output_path_overwrite_witness :
  fs sample_world !! "emb.safetensors" = Some (File [xff])
  ∧ ∃ w', process_file (H:=sample_codec) "emb.pt" "embedding" false sample_world
          = (Ok tt, w')
          ∧ (∃ content,
               fs w' = <["emb.safetensors" := File content]> (fs sample_world)
               ∧ last (out w') = Some [Lit "Saved converted file: emb.safetensors"])
          ∧ (∀ old,
               process_file (H:=sample_codec) "emb.pt" "embedding" false
                 (World (<["emb.safetensors" := File old]> (fs sample_world))
                    (out sample_world))
               = (Ok tt, w')).
Proof.
  split; [reflexivity |].
  set (w' := (process_file (H:=sample_codec) "emb.pt" "embedding" false sample_world).2).
  assert (Hrun : process_file (H:=sample_codec) "emb.pt" "embedding" false sample_world
                 = (Ok tt, w')) by reflexivity.
  destruct (output_path_overwrite (H:=sample_codec) _ _ _ _ _ Hrun)
    as (Hput & _ & Hover).
  exists w'. split; [exact Hrun |]. split; [exact Hput | exact Hover].
Defined.

Lemma batch_stops_at_first_failure_witness :
  process_pt_files (H:=sample_codec) "ckpts" "vae" false sample_world
  = (Raise (KeyError "state_dict"), sample_world)
  ∧ main (H:=sample_codec) "ckpts" "vae" false sample_world
    = (Ok tt, World (fs sample_world) [[Lit "An error occurred: 'state_dict'"]]).
Proof.
  apply (batch_stops_at_first_failure (H:=sample_codec) "ckpts" "vae" false
           sample_world sample_world sample_world
           ["a.pt"; "notes.txt"; "b.pt"; "sub"] [] ["b.pt"] "a.pt"
           (KeyError "state_dict")).
  - apply list_elem_of_In. simpl. tauto.
  - reflexivity.
  - reflexivity.
  - reflexivity.
  - reflexivity.
  - reflexivity.
Defined.

(** C2 fails: [ckpts/a.pt] has no [state_dict]; [ckpts/b.pt] converts when
    processed on its own, yet after [main] on the directory it has not been
    converted, and the one line printed names neither the file nor the kind
    of error. *)
Lemma batch_continues_counterexample :
  (process_file (H:=sample_codec) "ckpts/b.pt" "vae" false sample_world).1 = Ok tt
  ∧ (process_file (H:=sample_codec) "ckpts/a.pt" "vae" false sample_world).1
    = Raise (KeyError "state_dict")
  ∧ ∃ w', main (H:=sample_codec) "ckpts" "vae" false sample_world = (Ok tt, w')
          ∧ fs w' !! "ckpts/b.safetensors" = None
          ∧ out w' = [[Lit "An error occurred: 'state_dict'"]].
Proof.
  split; [reflexivity |]. split; [reflexivity |].
  eexists. split; [reflexivity |]. split; reflexivity.
Qed.

(** * Further properties of the script *)

(** ** Suffixes *)

Lemma string_app_cons (c : Ascii.ascii) (s t : string) :
  String c s +:+ t = String c (s +:+ t).
Proof. reflexivity. Qed.

Lemma string_app_nil (t : string) : EmptyString +:+ t = t.
Proof. reflexivity. Qed.

Lemma string_app_assoc (s1 s2 s3 : string) :
  (s1 +:+ s2) +:+ s3 = s1 +:+ s2 +:+ s3.
Proof.
  induction s1 as [|c s1 IH]; [done |].
  rewrite !string_app_cons. by f_equal.
Qed.

Lemma substring_0_all (s : string) : String.substring 0 (String.length s) s = s.
Proof. induction s as [|c s IH]; simpl; [done | by f_equal]. Qed.

Lemma substring_skip (s1 s2 : string) (m : nat) :
  String.substring (String.length s1) m (s1 +:+ s2) = String.substring 0 m s2.
Proof.
  induction s1 as [|c s1 IH]; [done |].
  rewrite string_app_cons. simpl. apply IH.
Qed.

(** A string is its first [n] characters followed by the rest. *)
Lemma substring_split (n : nat) (s : string) :
  (n ≤ String.length s)%nat →
  s = String.substring 0 n s +:+ String.substring n (String.length s - n) s.
Proof.
  revert s. induction n as [|n IH]; intros s Hn.
  - rewrite substring_0_0, Nat.sub_0_r, string_app_nil. by rewrite substring_0_all.
  - destruct s as [|c s]; simpl in *; [lia |].
    rewrite string_app_cons. f_equal. apply IH. lia.
Qed.

Lemma endswith_app (s suffix : string) : endswith (s +:+ suffix) suffix = true.
Proof.
  unfold endswith. rewrite string_length_app.
  apply andb_true_intro. split.
  - apply Nat.leb_le. lia.
  - replace (String.length s + String.length suffix - String.length suffix)
      with (String.length s) by lia.
    rewrite substring_skip, substring_0_all. apply String.eqb_refl.
Qed.

Lemma endswith_split (s suffix : string) :
  endswith s suffix = true → ∃ stem, s = stem +:+ suffix.
Proof.
  unfold endswith. intros [Hlen Heq]%andb_prop.
  apply Nat.leb_le in Hlen. apply String.eqb_eq in Heq.
  exists (String.substring 0 (String.length s - String.length suffix) s).
  pose proof (substring_split (String.length s - String.length suffix) s) as Hs.
  replace (String.length s - (String.length s - String.length suffix))
    with (String.length suffix) in Hs by lia.
  rewrite Heq in Hs. apply Hs. lia.
Qed.

Lemma prefix_char_cons (a c : Ascii.ascii) (s : string) :
  String.prefix (String a EmptyString) (String c s)
  = if Ascii.ascii_dec a c then true else false.
Proof.
  cbn [String.prefix]. destruct (Ascii.ascii_dec a c); [by destruct s | done].
Qed.

Lemma prefix_slash_app (stem suffix : string) :
  String.prefix "/" suffix = false →
  String.prefix "/" (stem +:+ suffix) = String.prefix "/" stem.
Proof.
  intros Hsuf. destruct stem as [|c stem].
  - by rewrite string_app_nil, Hsuf.
  - rewrite string_app_cons. by rewrite !prefix_char_cons.
Qed.

(** X15: a name the driver picks ends in ".pt", and its output lands beside
    it: the path handed to [save_file] is the same directory joined with the
    name's stem, followed by ".safetensors".  The same holds for a path given
    directly. *)
Theorem driver_output_name (dir name : string) :
  endswith name ".pt" = true →
  ∃ stem,
    name = stem +:+ ".pt"
    ∧ drop_last3 (os_path_join dir name) +:+ ".safetensors"
      = os_path_join dir stem +:+ ".safetensors"
    ∧ drop_last3 name +:+ ".safetensors" = stem +:+ ".safetensors".
Proof.
  intros [stem ->]%endswith_split. exists stem.
  split; [done |]. split; [| by rewrite drop_last3_app].
  f_equal. unfold os_path_join. rewrite prefix_slash_app by done.
  destruct (String.prefix "/" stem); [by rewrite drop_last3_app |].
  destruct (bool_decide (dir = EmptyString) || endswith dir "/").
  - by rewrite <- string_app_assoc, drop_last3_app.
  - by rewrite <- !string_app_assoc, drop_last3_app.
Qed.

(** ** The embedding extractor, case by case *)

(** The guarded print of lines 103-106 and 108-111, with the line named. *)
Lemma guarded_print_line (model : pydict) (k : string) (found : pyval → line)
    (missing : line) (B : Type) (rest : io B) (w : world) :
  (present <- and_then (dict_contains model k)
                (v <- getitem model k ;; ret (is_not_None v)) ;;
   (if present then v <- getitem model k ;; print (found v)
    else print missing) ;;
   rest) w
  = rest (World (fs w)
            (out w ++ [match model !! k with
                       | Some v => if is_not_None v then found v else missing
                       | None => missing
                       end])).
Proof.
  destruct (model !! k) as [v|] eqn:Hk.
  - rewrite (dict_contains_Some _ _ _ Hk). unfold getitem. rewrite Hk.
    unfold and_then, bind, ret, print. by destruct (is_not_None v).
  - by rewrite (dict_contains_None _ _ Hk).
Qed.

(** What [process_embedding_file] does once [string_to_param] is a
    dictionary (the default [{}] included) and [v] is what its ["*"] gives. *)
Lemma process_embedding_file_value (model sp : pydict) (v : pyval)
    (verbose : bool) (w : world) :
  dict_get model "string_to_param" (PDict ∅) = PDict sp →
  dict_get sp "*" PNone = v →
  process_embedding_file model verbose w
  = if verbose then
      match v with
      | PTensor t =>
          (Ok (PDict {[ "emb_params" := v ]}),
           World (fs w)
             (out w ++ [trained_on_line (model !! "sd_checkpoint_name");
                        steps_line (model !! "step");
                        [Lit "Dimensions of embedding tensor: ";
                         FmtShape (tensor_shape t)];
                        []]))
      | _ =>
          (Raise (AttributeError (type_name v) "shape"),
           World (fs w)
             (out w ++ [trained_on_line (model !! "sd_checkpoint_name");
                        steps_line (model !! "step")]))
      end
    else (Ok (PDict {[ "emb_params" := v ]}), w).
Proof.
  intros Hsp Hstar. unfold process_embedding_file. rewrite Hsp.
  unfold method_get. rewrite Hstar.
  destruct verbose; simpl when; [| done].
  unfold bind at 1. unfold ret at 1. unfold bind at 1.
  rewrite !guarded_print_line. fold (trained_on_line (model !! "sd_checkpoint_name")).
  fold (steps_line (model !! "step")).
  destruct v; unfold attr_shape, bind, raise, ret, print; simpl;
    by rewrite <- ?app_assoc.
Qed.

Lemma for_each_when_false {A} (p : A → bool) (body : A → io unit) (l : list A)
    (w : world) :
  (∀ x, x ∈ l → p x = false) →
  for_each l (λ x, when (p x) (body x)) w = (Ok tt, w).
Proof.
  induction l as [|x l IH]; intros Hall; simpl; [done |].
  rewrite (Hall x) by apply list_elem_of_here. simpl. unfold bind, ret.
  apply IH. intros y Hy. apply Hall. by apply list_elem_of_further.
Qed.

(** X7: with verbose on, an embedding checkpoint holding a tensor under
    ["*"] is reported in exactly four lines: the checkpoint name if
    [sd_checkpoint_name] is present and not [None], the step count if [step]
    is present and not [None] ([global_step] is not consulted), the shape,
    and a blank line. *)
Theorem embedding_report (model sp : pydict) (t : tensor) (w : world) :
  model !! "string_to_param" = Some (PDict sp) →
  sp !! "*" = Some (PTensor t) →
  process_embedding_file model true w
  = (Ok (PDict {[ "emb_params" := PTensor t ]}),
     World (fs w)
       (out w ++ [trained_on_line (model !! "sd_checkpoint_name");
                  steps_line (model !! "step");
                  [Lit "Dimensions of embedding tensor: "; FmtShape (tensor_shape t)];
                  []])).
Proof.
  intros Hsp Hstar.
  rewrite (process_embedding_file_value model sp (PTensor t) true w); [done | |].
  - unfold dict_get. by rewrite Hsp.
  - unfold dict_get. by rewrite Hstar.
Qed.

(** X8: when what [string_to_param]'s ["*"] gives is no tensor ([None] for a
    missing key, or any other value), quiet extraction passes it on as
    [emb_params] without complaint, while verbose extraction raises
    [AttributeError] on its [shape] after the two metadata lines. *)
Theorem embedding_needs_tensor_when_verbose (model sp : pydict) (v : pyval)
    (w : world) :
  dict_get model "string_to_param" (PDict ∅) = PDict sp →
  dict_get sp "*" PNone = v →
  is_tensor v = false →
  process_embedding_file model false w = (Ok (PDict {[ "emb_params" := v ]}), w)
  ∧ process_embedding_file model true w
    = (Raise (AttributeError (type_name v) "shape"),
       World (fs w)
         (out w ++ [trained_on_line (model !! "sd_checkpoint_name");
                    steps_line (model !! "step")])).
Proof.
  intros Hsp Hstar Hv. split.
  - by rewrite (process_embedding_file_value model sp v false w).
  - rewrite (process_embedding_file_value model sp v true w) by done.
    by destruct v.
Qed.

(** X9: a [string_to_param] that is present and is no dictionary ([None],
    say) makes extraction raise [AttributeError] on [get], verbose or not,
    before anything is printed: the default [{}] only stands in for a
    missing key. *)
Theorem string_to_param_not_a_dict (model : pydict) (v : pyval) (verbose : bool)
    (w : world) :
  model !! "string_to_param" = Some v →
  (∀ d, v ≠ PDict d) →
  process_embedding_file model verbose w
  = (Raise (AttributeError (type_name v) "get"), w).
Proof.
  intros Hsp Hv. unfold process_embedding_file, dict_get. rewrite Hsp.
  destruct v; try done. by destruct (Hv d).
Qed.

Section FurtherProperties.

Context `{Codec}.

(** Every way [process_file] can end: it raises with the file system as it
    was, or it returns having put one file at the output path, where no
    directory stood.  Lines are only ever appended. *)
Lemma process_file_outcome (file_path model_type : string) (verbose : bool)
    (w w' : world) (r : result unit) :
  process_file file_path model_type verbose w = (r, w') →
  (∃ lines : list line, out w' = (out w ++ lines)%list)
  ∧ ((∃ e, r = Raise e ∧ fs w' = fs w)
     ∨ (r = Ok tt
        ∧ (∀ entries, fs w !! (drop_last3 file_path +:+ ".safetensors")
                      ≠ Some (Dir entries))
        ∧ ∃ content,
            fs w' = <[drop_last3 file_path +:+ ".safetensors" := File content]> (fs w))).
Proof.
  destruct w as [f o]. simpl.
  unfold process_file. set (target := drop_last3 file_path +:+ ".safetensors").
  set (branch := λ model : pydict,
    if String.eqb model_type "embedding" then process_embedding_file model verbose
    else if String.eqb model_type "vae" then process_vae_file model verbose
    else raise (ValueError ("model_type `" +:+ model_type +:+ "` is not supported!"))).
  unfold bind at 1.
  destruct (torch_load file_path (World f o)) as [[model|e] w1] eqn:Hload.
  2:{ assert (w1 = World f o) as -> by (by eapply torch_load_world).
      intros [= <- <-]. simpl. split; [exists []; by rewrite app_nil_r |].
      left. by exists e. }
  assert (w1 = World f o) as -> by (by eapply torch_load_world).
  destruct (bind_prints_only
              (when verbose (print [Lit ("Processing file: " +:+ file_path)]))
              (λ _, s_model <- branch model ;;
                    save_file s_model target ;;
                    print [Lit ("Saved converted file: " +:+ target)]))
    as (r1 & l1 & H1).
  { apply prints_only_when, prints_only_print. }
  assert (Hbranch : prints_only (branch model)).
  { unfold branch. destruct (String.eqb model_type "embedding");
      [apply prints_only_process_embedding_file |].
    destruct (String.eqb model_type "vae");
      [apply prints_only_process_vae_file | apply prints_only_raise]. }
  destruct (bind_prints_only (branch model)
              (λ s_model, save_file s_model target ;;
                          print [Lit ("Saved converted file: " +:+ target)])
              Hbranch) as (r2 & l2 & H2).
  rewrite H1. destruct r1 as [[]|e1].
  2:{ intros [= <- <-]. simpl. split; [by exists l1 |]. left. by exists e1. }
  rewrite H2. destruct r2 as [s_model|e2].
  2:{ intros [= <- <-]. simpl. split; [exists (l1 ++ l2)%list; by rewrite app_assoc |].
      left. by exists e2. }
  simpl. unfold save_file, bind, lift, write_file, print. simpl.
  destruct (serialize s_model) as [content|e3].
  2:{ intros [= <- <-]. simpl. split; [exists (l1 ++ l2)%list; by rewrite app_assoc |].
      left. by exists e3. }
  destruct (f !! target) as [[c0|entries]|] eqn:Ht.
  - intros [= <- <-]. simpl. split.
    + exists (l1 ++ l2 ++ [[Lit ("Saved converted file: " +:+ target)]])%list.
      by rewrite <- !app_assoc.
    + right. split; [done |]. split; [done |]. by exists content.
  - intros [= <- <-]. simpl. split; [exists (l1 ++ l2)%list; by rewrite app_assoc |].
    left. eauto.
  - intros [= <- <-]. simpl. split.
    + exists (l1 ++ l2 ++ [[Lit ("Saved converted file: " +:+ target)]])%list.
      by rewrite <- !app_assoc.
    + right. split; [done |]. split; [done |]. by exists content.
Qed.


(** ** Conversions from end to end *)

(** [save_file] and the closing print, on any world. *)
Lemma save_and_report (s_model : pyval) (target : string) (w : world) :
  (save_file s_model target ;;
   print [Lit ("Saved converted file: " +:+ target)]) w
  = match serialize s_model with
    | Raise e => (Raise e, w)
    | Ok content =>
        match fs w !! target with
        | Some (Dir _) => (Raise (save_error target), w)
        | _ =>
            (Ok tt,
             World (<[target := File content]> (fs w))
               (out w ++ [[Lit ("Saved converted file: " +:+ target)]]))
        end
    end.
Proof.
  unfold save_file, bind, lift, write_file, print.
  destruct (serialize s_model) as [content|e]; [| done].
  by destruct (fs w !! target) as [[c0|entries]|].
Qed.

Lemma torch_load_file (file_path : string) (content : list byte) (w : world) :
  fs w !! file_path = Some (File content) →
  torch_load file_path w = (unpickle content, w).
Proof. intros Hfile. unfold torch_load, bind, read_file, lift. rewrite Hfile.
  by destruct (unpickle content). Qed.

(** [process_file] on an embedding checkpoint that decodes, with [v] what
    [string_to_param]'s ["*"] gives and extraction quiet. *)
Lemma process_file_embedding_quiet (file_path : string) (content : list byte)
    (model sp : pydict) (v : pyval) (w : world) :
  fs w !! file_path = Some (File content) →
  unpickle content = Ok model →
  dict_get model "string_to_param" (PDict ∅) = PDict sp →
  dict_get sp "*" PNone = v →
  process_file file_path "embedding" false w
  = (save_file (PDict {[ "emb_params" := v ]})
       (drop_last3 file_path +:+ ".safetensors") ;;
     print [Lit ("Saved converted file: " +:+ drop_last3 file_path +:+ ".safetensors")]) w.
Proof.
  intros Hfile Hload Hsp Hstar. unfold process_file.
  unfold bind at 1. rewrite (torch_load_file _ _ _ Hfile), Hload.
  simpl when. unfold bind at 1. unfold ret at 1.
  change (String.eqb "embedding" "embedding") with true. cbv iota.
  unfold bind at 1.
  by rewrite (process_embedding_file_value _ _ _ false _ Hsp Hstar).
Qed.

(** [process_file] on a VAE checkpoint that decodes and holds [state_dict]. *)
Lemma process_file_vae_present (file_path : string) (content : list byte)
    (model : pydict) (state_dict : pyval) (verbose : bool) (w : world) :
  fs w !! file_path = Some (File content) →
  unpickle content = Ok model →
  model !! "state_dict" = Some state_dict →
  process_file file_path "vae" verbose w
  = (save_file state_dict (drop_last3 file_path +:+ ".safetensors") ;;
     print [Lit ("Saved converted file: " +:+ drop_last3 file_path +:+ ".safetensors")])
      (World (fs w)
         (out w ++ if verbose
                   then [[Lit ("Processing file: " +:+ file_path)];
                         steps_line (steps_spec model); []]
                   else [])).
Proof.
  intros Hfile Hload Hsd. unfold process_file.
  unfold bind at 1. rewrite (torch_load_file _ _ _ Hfile), Hload.
  change (String.eqb "vae" "embedding") with false.
  change (String.eqb "vae" "vae") with true. cbv iota.
  destruct verbose; simpl when.
  - unfold bind at 1. unfold print at 1. unfold bind at 1.
    rewrite (process_vae_file_present _ _ true _ Hsd). simpl.
    by rewrite <- app_assoc.
  - unfold bind at 1. unfold ret at 1. unfold bind at 1.
    by rewrite (process_vae_file_present _ _ false _ Hsd).
Qed.

(** [process_file] on an embedding checkpoint that decodes and holds a
    tensor under ["*"]. *)
Lemma process_file_embedding_tensor (file_path : string) (content : list byte)
    (model sp : pydict) (t : tensor) (verbose : bool) (w : world) :
  fs w !! file_path = Some (File content) →
  unpickle content = Ok model →
  model !! "string_to_param" = Some (PDict sp) →
  sp !! "*" = Some (PTensor t) →
  process_file file_path "embedding" verbose w
  = (save_file (PDict {[ "emb_params" := PTensor t ]})
       (drop_last3 file_path +:+ ".safetensors") ;;
     print [Lit ("Saved converted file: " +:+ drop_last3 file_path +:+ ".safetensors")])
      (World (fs w)
         (out w ++ if verbose
                   then [[Lit ("Processing file: " +:+ file_path)];
                         trained_on_line (model !! "sd_checkpoint_name");
                         steps_line (model !! "step");
                         [Lit "Dimensions of embedding tensor: ";
                          FmtShape (tensor_shape t)];
                         []]
                   else [])).
Proof.
  intros Hfile Hload Hsp Hstar.
  assert (Hsp' : dict_get model "string_to_param" (PDict ∅) = PDict sp)
    by (unfold dict_get; by rewrite Hsp).
  assert (Hstar' : dict_get sp "*" PNone = PTensor t)
    by (unfold dict_get; by rewrite Hstar).
  unfold process_file.
  unfold bind at 1. rewrite (torch_load_file _ _ _ Hfile), Hload.
  change (String.eqb "embedding" "embedding") with true. cbv iota.
  destruct verbose; simpl when.
  - unfold bind at 1. unfold print at 1. unfold bind at 1.
    rewrite (process_embedding_file_value _ _ _ true _ Hsp' Hstar'). simpl.
    by rewrite <- app_assoc.
  - unfold bind at 1. unfold ret at 1. unfold bind at 1.
    rewrite (process_embedding_file_value _ _ _ false _ Hsp' Hstar').
    by rewrite world_out_nil.
Qed.

(** The driver, by what stands at [path]. *)
Lemma process_pt_files_cases (path model_type : string) (verbose : bool) (w : world) :
  process_pt_files path model_type verbose w
  = match fs w !! path with
    | None =>
        (Raise (FileNotFoundError ("The specified path does not exist: " +:+ path)), w)
    | Some (Dir entries) =>
        for_each entries (λ file_name,
          when (endswith file_name ".pt")
            (process_file (os_path_join path file_name) model_type verbose)) w
    | Some (File _) =>
        if endswith path ".pt" then process_file path model_type verbose w
        else print [Lit (path +:+ " is not a valid directory or .pt file.")] w
    end.
Proof.
  unfold process_pt_files, bind, os_path_exists, os_path_isdir, os_listdir,
    os_path_isfile. cbv beta.
  destruct (fs w !! path) as [[content|entries]|] eqn:Hpath.
  - rewrite bool_decide_eq_true_2 by done. cbn [negb andb]. cbv beta iota.
    rewrite Hpath. cbv beta iota. rewrite Hpath. cbn [andb].
    by destruct (endswith path ".pt").
  - rewrite bool_decide_eq_true_2 by done. cbn [negb]. cbv beta iota.
    rewrite Hpath. cbv beta iota. by rewrite Hpath.
  - rewrite bool_decide_eq_false_2 by (by intros [? ?]). done.
Qed.

(** ** Errors on the way in *)

(** X1: a path that does not exist makes [process_pt_files] raise the
    [FileNotFoundError] of line 41 with nothing done; [main] turns it into
    one printed line and returns normally. *)
Theorem missing_path_reported (path model_type : string) (verbose : bool)
    (w : world) :
  fs w !! path = None →
  model_type ∈ ["embedding"; "vae"] →
  process_pt_files path model_type verbose w
  = (Raise (FileNotFoundError ("The specified path does not exist: " +:+ path)), w)
  ∧ main path model_type verbose w
    = (Ok tt,
       World (fs w)
         (out w ++ [[Lit ("An error occurred: The specified path does not exist: "
                          +:+ path)]])).
Proof.
  intros Hpath Hchoice.
  assert (Hrun : process_pt_files path model_type verbose w
    = (Raise (FileNotFoundError ("The specified path does not exist: " +:+ path)), w)).
  { by rewrite process_pt_files_cases, Hpath. }
  split; [done |].
  unfold main. rewrite bool_decide_eq_true_2 by done.
  unfold try_except. by rewrite Hrun.
Qed.

(** X2: a file that [torch.load] cannot decode makes [process_file] raise
    the decoder's exception at once: nothing is printed, also when verbose,
    and nothing is written. *)
Theorem undecodable_file_fails_first (file_path model_type : string)
    (verbose : bool) (content : list byte) (e : exn) (w : world) :
  fs w !! file_path = Some (File content) →
  unpickle content = Raise e →
  process_file file_path model_type verbose w = (Raise e, w).
Proof.
  intros Hfile Hload. unfold process_file. unfold bind at 1.
  by rewrite (torch_load_file _ _ _ Hfile), Hload.
Qed.

(** ** What a conversion leaves behind *)


(** X4: a conversion that returns has left a file at the output path, and
    that path is a name of its own: it ends in ".safetensors" and is never
    [file_path] itself, whatever [file_path] is. *)
Theorem output_is_a_name_of_its_own (file_path model_type : string)
    (verbose : bool) (w w' : world) :
  process_file file_path model_type verbose w = (Ok tt, w') →
  drop_last3 file_path +:+ ".safetensors" ≠ file_path
  ∧ endswith (drop_last3 file_path +:+ ".safetensors") ".safetensors" = true
  ∧ ∃ content,
      fs w' !! (drop_last3 file_path +:+ ".safetensors") = Some (File content).
Proof.
  intros Hrun. split; [apply new_file_path_neq |]. split; [apply endswith_app |].
  destruct (process_file_outcome _ _ _ _ _ _ Hrun)
    as [_ [(e & [=] & _)|(_ & _ & content & ->)]].
  exists content. apply lookup_insert_eq.
Qed.


(** X10: a directory that lists no name ending in ".pt" is a silent
    no-op: [process_pt_files] and [main] return normally with nothing
    printed and nothing written. *)
Theorem empty_batch_is_silent (path model_type : string) (verbose : bool)
    (entries : list string) (w : world) :
  fs w !! path = Some (Dir entries) →
  (∀ name, name ∈ entries → endswith name ".pt" = false) →
  model_type ∈ ["embedding"; "vae"] →
  process_pt_files path model_type verbose w = (Ok tt, w)
  ∧ main path model_type verbose w = (Ok tt, w).
Proof.
  intros Hdir Hnone Hchoice.
  assert (Hrun : process_pt_files path model_type verbose w = (Ok tt, w)).
  { rewrite process_pt_files_cases, Hdir.
    by apply (for_each_when_false (λ name, endswith name ".pt")). }
  split; [done |].
  unfold main. rewrite bool_decide_eq_true_2 by done.
  unfold try_except. by rewrite Hrun.
Qed.

(** X16: a subdirectory whose name ends in ".pt" is not entered: it is
    handed to [process_file] like a file, [torch.load] raises
    [IsADirectoryError] on it, and the batch ends there; when no ".pt" name
    precedes it in the listing, nothing has been printed or written. *)
Theorem pt_named_directory_ends_batch (path model_type : string) (verbose : bool)
    (before rest sub : list string) (name : string) (w : world) :
  fs w !! path = Some (Dir (before ++ name :: rest)) →
  (∀ other, other ∈ before → endswith other ".pt" = false) →
  endswith name ".pt" = true →
  fs w !! os_path_join path name = Some (Dir sub) →
  process_pt_files path model_type verbose w
  = (Raise (IsADirectoryError
              (os_error_msg "21" "Is a directory" (os_path_join path name))), w).
Proof.
  intros Hdir Hbefore Hname Hsub.
  rewrite process_pt_files_cases, Hdir.
  rewrite (for_each_app _ before (name :: rest) w w)
    by (by apply (for_each_when_false (λ n, endswith n ".pt"))).
  simpl. rewrite Hname. simpl.
  unfold bind at 1. unfold process_file. unfold bind at 1.
  unfold torch_load, read_file. unfold bind at 1. by rewrite Hsub.
Qed.

(** ** Conversions that succeed, and the one that should not *)

(** X11: an embedding file that decodes, holds a tensor under
    [string_to_param]'s ["*"] and whose one-entry dictionary [save_file]
    encodes, is converted: the encoding is put at the output path (where no
    directory stands), the progress lines are printed when verbose, and the
    closing line always. *)
Theorem embedding_conversion (file_path : string) (content encoded : list byte)
    (model sp : pydict) (t : tensor) (verbose : bool) (w : world) :
  fs w !! file_path = Some (File content) →
  unpickle content = Ok model →
  model !! "string_to_param" = Some (PDict sp) →
  sp !! "*" = Some (PTensor t) →
  serialize (PDict {[ "emb_params" := PTensor t ]}) = Ok encoded →
  (∀ entries, fs w !! (drop_last3 file_path +:+ ".safetensors") ≠ Some (Dir entries)) →
  process_file file_path "embedding" verbose w
  = (Ok tt,
     World (<[drop_last3 file_path +:+ ".safetensors" := File encoded]> (fs w))
       (out w
        ++ (if verbose
            then [[Lit ("Processing file: " +:+ file_path)];
                  trained_on_line (model !! "sd_checkpoint_name");
                  steps_line (model !! "step");
                  [Lit "Dimensions of embedding tensor: "; FmtShape (tensor_shape t)];
                  []]
            else [])
        ++ [[Lit ("Saved converted file: "
                  +:+ drop_last3 file_path +:+ ".safetensors")]])).
Proof.
  intros Hfile Hload Hsp Hstar Hser Hfree.
  rewrite (process_file_embedding_tensor _ _ _ _ _ _ _ Hfile Hload Hsp Hstar).
  rewrite save_and_report, Hser. simpl.
  destruct (fs w !! (drop_last3 file_path +:+ ".safetensors"))
    as [[c0|entries]|] eqn:Ht; [| by destruct (Hfree entries) |];
    by rewrite <- app_assoc.
Qed.

(** X12: a VAE file that decodes, holds [state_dict], and whose
    [state_dict] [save_file] encodes, is converted: the encoding of
    [state_dict] itself is put at the output path (where no directory
    stands); [step] and [global_step] only show in the verbose lines. *)
Theorem vae_conversion (file_path : string) (content encoded : list byte)
    (model : pydict) (state_dict : pyval) (verbose : bool) (w : world) :
  fs w !! file_path = Some (File content) →
  unpickle content = Ok model →
  model !! "state_dict" = Some state_dict →
  serialize state_dict = Ok encoded →
  (∀ entries, fs w !! (drop_last3 file_path +:+ ".safetensors") ≠ Some (Dir entries)) →
  process_file file_path "vae" verbose w
  = (Ok tt,
     World (<[drop_last3 file_path +:+ ".safetensors" := File encoded]> (fs w))
       (out w
        ++ (if verbose
            then [[Lit ("Processing file: " +:+ file_path)];
                  steps_line (steps_spec model); []]
            else [])
        ++ [[Lit ("Saved converted file: "
                  +:+ drop_last3 file_path +:+ ".safetensors")]])).
Proof.
  intros Hfile Hload Hsd Hser Hfree.
  rewrite (process_file_vae_present _ _ _ _ _ _ Hfile Hload Hsd).
  rewrite save_and_report, Hser. simpl.
  destruct (fs w !! (drop_last3 file_path +:+ ".safetensors"))
    as [[c0|entries]|] eqn:Ht; [| by destruct (Hfree entries) |];
    by rewrite <- app_assoc.
Qed.

(** X13: an embedding file without [string_to_param] is not turned down by
    the script when quiet: [{'emb_params': None}] goes to [save_file], and
    the conversion ends as [save_file] does.  If it raises, that exception is
    the outcome and nothing is written; if it encodes, a file is written. *)
Theorem missing_embedding_surfaces_at_save (file_path : string)
    (content : list byte) (model : pydict) (w : world) :
  fs w !! file_path = Some (File content) →
  unpickle content = Ok model →
  model !! "string_to_param" = None →
  process_file file_path "embedding" false w
  = match serialize (PDict {[ "emb_params" := PNone ]}) with
    | Raise e => (Raise e, w)
    | Ok encoded =>
        match fs w !! (drop_last3 file_path +:+ ".safetensors") with
        | Some (Dir _) =>
            (Raise (save_error (drop_last3 file_path +:+ ".safetensors")), w)
        | _ =>
            (Ok tt,
             World (<[drop_last3 file_path +:+ ".safetensors" := File encoded]> (fs w))
               (out w ++ [[Lit ("Saved converted file: "
                                +:+ drop_last3 file_path +:+ ".safetensors")]]))
        end
    end.
Proof.
  intros Hfile Hload Hsp.
  rewrite (process_file_embedding_quiet _ _ model ∅ PNone _ Hfile Hload).
  - apply save_and_report.
  - unfold dict_get. by rewrite Hsp.
  - done.
Qed.


(** ** The driver on a directory *)

Lemma extract_run (model_type : string) (model : pydict) (verbose : bool)
    (w : world) :
  (if String.eqb model_type "embedding" then process_embedding_file model verbose
   else if String.eqb model_type "vae" then process_vae_file model verbose
   else raise (ValueError ("model_type `" +:+ model_type +:+ "` is not supported!"))) w
  = ((extract model_type model verbose).1,
     World (fs w) (out w ++ (extract model_type model verbose).2)).
Proof.
  unfold extract.
  assert (Hprints : prints_only
    (if String.eqb model_type "embedding" then process_embedding_file model verbose
     else if String.eqb model_type "vae" then process_vae_file model verbose
     else raise (ValueError ("model_type `" +:+ model_type +:+ "` is not supported!")))).
  { destruct (String.eqb model_type "embedding");
      [apply prints_only_process_embedding_file |].
    destruct (String.eqb model_type "vae");
      [apply prints_only_process_vae_file | apply prints_only_raise]. }
  destruct Hprints as (r & lines & Hrun). by rewrite !Hrun.
Qed.

(** [process_file] is the conversion of one file. *)
Lemma process_file_convert_file (file_path model_type : string) (verbose : bool)
    (w : world) :
  process_file file_path model_type verbose w
  = convert_file file_path model_type verbose w.
Proof.
  unfold convert_file.
  destruct (fs w !! file_path) as [[content|entries]|] eqn:Hfile.
  - unfold process_file. unfold bind at 1. rewrite (torch_load_file _ _ _ Hfile).
    destruct (unpickle content) as [model|e]; [| done].
    unfold bind at 1.
    assert (Hwhen : when verbose (print [Lit ("Processing file: " +:+ file_path)]) w
              = (Ok tt, World (fs w)
                          (out w ++ if verbose
                                    then [[Lit ("Processing file: " +:+ file_path)]]
                                    else [])))
      by (destruct verbose; simpl; unfold ret, print; by rewrite ?world_out_nil).
    rewrite Hwhen. unfold bind at 1. rewrite extract_run.
    destruct (extract model_type model verbose) as [[s_model|e] lines];
      cbn [fst snd fs out].
    + rewrite save_and_report. cbn [fst snd fs out]. rewrite <- !app_assoc.
      destruct (serialize s_model) as [encoded|e]; [| done].
      by destruct (fs w !! (drop_last3 file_path +:+ ".safetensors"))
        as [[c0|entries]|].
    + by rewrite <- app_assoc.
  - unfold process_file, torch_load, read_file, bind. by rewrite Hfile.
  - unfold process_file, torch_load, read_file, bind. by rewrite Hfile.
Qed.

(** The loop of lines 45-47 is the conversion of the entries. *)
Lemma for_each_convert_entries (dir model_type : string) (verbose : bool)
    (names : list string) (w : world) :
  for_each names (λ file_name,
    when (endswith file_name ".pt")
      (process_file (os_path_join dir file_name) model_type verbose)) w
  = convert_entries dir names model_type verbose w.
Proof.
  revert w. induction names as [|name rest IH]; intros w; simpl; [done |].
  unfold bind. destruct (endswith name ".pt"); simpl.
  - rewrite process_file_convert_file.
    destruct (convert_file (os_path_join dir name) model_type verbose w)
      as [[[]|e] w1]; [apply IH | done].
  - apply IH.
Qed.

(** A conversion that returns has put a file at its output path and has
    left a file wherever one was. *)
Lemma convert_file_written (file_path model_type : string) (verbose : bool)
    (w w' : world) :
  convert_file file_path model_type verbose w = (Ok tt, w') →
  (∃ encoded,
     fs w' !! (drop_last3 file_path +:+ ".safetensors") = Some (File encoded))
  ∧ ∀ p content, fs w !! p = Some (File content) →
                 ∃ content', fs w' !! p = Some (File content').
Proof.
  rewrite <- process_file_convert_file. intros Hrun.
  destruct (process_file_outcome _ _ _ _ _ _ Hrun)
    as [_ [(e & [=] & _)|(_ & _ & encoded & ->)]].
  split; [exists encoded; apply lookup_insert_eq |].
  intros p content Hp.
  destruct (decide (drop_last3 file_path +:+ ".safetensors" = p)) as [<-|Hne].
  - exists encoded. apply lookup_insert_eq.
  - exists content. by rewrite lookup_insert_ne.
Qed.

(** When the conversion of the entries returns, every name ending in ".pt"
    has a file at its output path. *)
Lemma convert_entries_written (dir model_type : string) (verbose : bool)
    (names : list string) (w w' : world) :
  convert_entries dir names model_type verbose w = (Ok tt, w') →
  (∀ name, name ∈ names → endswith name ".pt" = true →
     ∃ encoded,
       fs w' !! (drop_last3 (os_path_join dir name) +:+ ".safetensors")
       = Some (File encoded))
  ∧ ∀ p content, fs w !! p = Some (File content) →
                 ∃ content', fs w' !! p = Some (File content').
Proof.
  revert w. induction names as [|name rest IH]; intros w; simpl.
  - intros [= <-]. split; [by intros name []%elem_of_nil | eauto].
  - destruct (endswith name ".pt") eqn:Hname.
    + destruct (convert_file (os_path_join dir name) model_type verbose w)
        as [[[]|e] w1] eqn:Hone; [| done].
      intros Hrest. destruct (IH _ Hrest) as [Hnames Hfiles].
      destruct (convert_file_written _ _ _ _ _ Hone) as [[encoded Hout] Hkept].
      split.
      * intros other [->|Hother]%elem_of_cons Hpt; [| by apply Hnames].
        by apply (Hfiles _ encoded).
      * intros p content Hp. destruct (Hkept _ _ Hp) as [content' Hp'].
        by apply (Hfiles _ content').
    + intros Hrest. destruct (IH _ Hrest) as [Hnames Hfiles]. split; [| done].
      intros other [->|Hother]%elem_of_cons Hpt; [congruence | by apply Hnames].
Qed.

(** C10, as the script has it: on a directory the driver goes through the
    listed names in order.  A name that does not end in ".pt" is passed over
    with nothing printed, a subdirectory included (none is listed in turn); a
    name that ends in ".pt" is converted: its bytes are decoded, extracted,
    encoded and written beside it; the first conversion that fails ends the
    run, the names after it unconverted.  When the run returns, every listed
    name ending in ".pt" has a file at its output path.  On an existing file
    whose name does not end in ".pt" the driver prints one line and raises
    nothing. *)
Theorem directory_conversion (path model_type : string) (verbose : bool)
    (w : world) :
  (∀ entries, fs w !! path = Some (Dir entries) →
     process_pt_files path model_type verbose w
     = convert_entries path entries model_type verbose w
     ∧ ∀ w', process_pt_files path model_type verbose w = (Ok tt, w') →
         ∀ name, name ∈ entries → endswith name ".pt" = true →
           ∃ encoded,
             fs w' !! (drop_last3 (os_path_join path name) +:+ ".safetensors")
             = Some (File encoded))
  ∧ (∀ content, fs w !! path = Some (File content) →
       endswith path ".pt" = false →
       process_pt_files path model_type verbose w
       = (Ok tt,
          World (fs w)
            (out w ++ [[Lit (path +:+ " is not a valid directory or .pt file.")]]))).
Proof.
  split.
  - intros entries Hdir.
    assert (Hrun : process_pt_files path model_type verbose w
                   = convert_entries path entries model_type verbose w).
    { rewrite process_pt_files_cases, Hdir. apply for_each_convert_entries. }
    split; [done |]. intros w' Hok. rewrite Hrun in Hok.
    by destruct (convert_entries_written _ _ _ _ _ _ Hok).
  - intros content Hfile Hext. by rewrite process_pt_files_cases, Hfile, Hext.
Qed.

End FurtherProperties.

(** * The further properties on the sample inputs *)

Lemma missing_path_reported_witness :
  fs sample_world !! "nowhere" = None
  ∧ process_pt_files (H:=sample_codec) "nowhere" "vae" true sample_world
    = (Raise (FileNotFoundError "The specified path does not exist: nowhere"),
       sample_world)
  ∧ main (H:=sample_codec) "nowhere" "vae" true sample_world
    = (Ok tt,
       World (fs sample_world)
         [[Lit "An error occurred: The specified path does not exist: nowhere"]]).
Proof.
  split; [reflexivity |].
  apply (missing_path_reported (H:=sample_codec) "nowhere" "vae" true sample_world).
  - reflexivity.
  - apply list_elem_of_In. simpl. tauto.
Defined.

Lemma undecodable_file_fails_first_witness :
  process_file (H:=sample_codec) "ckpts/notes.txt" "vae" true sample_world
  = (Raise (LibraryError "UnpicklingError" "invalid load key"), sample_world).
Proof.
  apply (undecodable_file_fails_first (H:=sample_codec) "ckpts/notes.txt" "vae" true []);
    reflexivity.
Defined.


Lemma output_is_a_name_of_its_own_witness :
  "emb.safetensors" ≠ "emb.pt"
  ∧ endswith "emb.safetensors" ".safetensors" = true
  ∧ ∃ content,
      fs (process_file (H:=sample_codec) "emb.pt" "embedding" false sample_world).2
        !! "emb.safetensors"
      = Some (File content).
Proof.
  apply (output_is_a_name_of_its_own (H:=sample_codec) "emb.pt" "embedding" false
           sample_world).
  reflexivity.
Defined.


Lemma embedding_report_witness :
  process_embedding_file emb_ckpt true sample_world
  = (Ok (PDict {[ "emb_params" := PTensor emb_tensor ]}),
     World (fs sample_world)
       [[Lit "Trained on "; Fmt (PStr "v1-5-pruned"); Lit "."];
        [Lit "Trained for "; Fmt (PInt 500); Lit " steps."];
        [Lit "Dimensions of embedding tensor: "; FmtShape [3%N; 4%N]];
        []]).
Proof.
  apply (embedding_report emb_ckpt {[ "*" := PTensor emb_tensor ]} emb_tensor
           sample_world); reflexivity.
Defined.

(** [step] is [None] and [global_step] is 12: no step is reported. *)
Lemma embedding_needs_tensor_when_verbose_witness :
  process_embedding_file int_param_ckpt false sample_world
  = (Ok (PDict {[ "emb_params" := PInt 7 ]}), sample_world)
  ∧ process_embedding_file int_param_ckpt true sample_world
    = (Raise (AttributeError "int" "shape"),
       World (fs sample_world)
         [[Lit "Checkpoint name not found in the model."];
          [Lit "Step not found in the model."]]).
Proof.
  apply (embedding_needs_tensor_when_verbose int_param_ckpt {[ "*" := PInt 7 ]}
           (PInt 7) sample_world); reflexivity.
Defined.

Lemma string_to_param_not_a_dict_witness :
  process_embedding_file null_param_ckpt true sample_world
  = (Raise (AttributeError "NoneType" "get"), sample_world).
Proof.
  apply (string_to_param_not_a_dict null_param_ckpt PNone true sample_world);
    [reflexivity | discriminate].
Defined.

Lemma empty_batch_is_silent_witness :
  process_pt_files (H:=sample_codec) "docs" "vae" true docs_world = (Ok tt, docs_world)
  ∧ main (H:=sample_codec) "docs" "vae" true docs_world = (Ok tt, docs_world).
Proof.
  apply (empty_batch_is_silent (H:=sample_codec) "docs" "vae" true
           ["readme.md"; "model.safetensors"; "old"] docs_world).
  - reflexivity.
  - intros name Hname. apply list_elem_of_In in Hname. simpl in Hname.
    destruct Hname as [<-|[<-|[<-|[]]]]; reflexivity.
  - apply list_elem_of_In. simpl. tauto.
Defined.

Lemma embedding_conversion_witness :
  process_file (H:=sample_codec) "emb.pt" "embedding" true sample_world
  = (Ok tt,
     World (<["emb.safetensors" := File (replicate 48 x00)]> (fs sample_world))
       [[Lit "Processing file: emb.pt"];
        [Lit "Trained on "; Fmt (PStr "v1-5-pruned"); Lit "."];
        [Lit "Trained for "; Fmt (PInt 500); Lit " steps."];
        [Lit "Dimensions of embedding tensor: "; FmtShape [3%N; 4%N]];
        [];
        [Lit "Saved converted file: emb.safetensors"]]).
Proof.
  apply (embedding_conversion (H:=sample_codec) "emb.pt" [x01] (replicate 48 x00)
           emb_ckpt {[ "*" := PTensor emb_tensor ]} emb_tensor true sample_world);
    try reflexivity.
  intros entries. discriminate.
Defined.

Lemma vae_conversion_witness :
  process_file (H:=sample_codec) "ckpts/b.pt" "vae" true sample_world
  = (Ok tt,
     World (<["ckpts/b.safetensors" := File (replicate 16 x01 ++ replicate 4 x02)]>
              (fs sample_world))
       [[Lit "Processing file: ckpts/b.pt"];
        [Lit "Trained for "; Fmt (PInt 12); Lit " steps."];
        [];
        [Lit "Saved converted file: ckpts/b.safetensors"]]).
Proof.
  apply (vae_conversion (H:=sample_codec) "ckpts/b.pt" [x02]
           (replicate 16 x01 ++ replicate 4 x02) vae_ckpt
           (PDict {[ "encoder.weight" := PTensor encoder_weight;
                     "decoder.bias" := PTensor decoder_bias ]})
           true sample_world);
    try reflexivity.
  intros entries. discriminate.
Defined.

Lemma missing_embedding_surfaces_at_save_witness :
  process_file (H:=sample_codec) "ckpts/a.pt" "embedding" false sample_world
  = (Raise (ValueError "expected torch.Tensor"), sample_world).
Proof.
  rewrite (missing_embedding_surfaces_at_save (H:=sample_codec) "ckpts/a.pt" [x03]
             bare_ckpt sample_world); reflexivity.
Defined.

Lemma driver_output_name_witness :
  ∃ stem,
    "b.pt" = stem +:+ ".pt"
    ∧ drop_last3 (os_path_join "ckpts" "b.pt") +:+ ".safetensors"
      = os_path_join "ckpts" stem +:+ ".safetensors"
    ∧ drop_last3 "b.pt" +:+ ".safetensors" = stem +:+ ".safetensors".
Proof. apply (driver_output_name "ckpts" "b.pt"). reflexivity. Defined.

Lemma pt_named_directory_ends_batch_witness :
  process_pt_files (H:=sample_codec) "runs" "vae" true runs_world
  = (Raise (IsADirectoryError "[Errno 21] Is a directory: 'runs/epoch1.pt'"),
     runs_world).
Proof.
  apply (pt_named_directory_ends_batch (H:=sample_codec) "runs" "vae" true
           ["log.txt"] ["final.pt"] ["weights.pt"] "epoch1.pt" runs_world).
  - reflexivity.
  - intros other Hother. apply list_elem_of_In in Hother. simpl in Hother.
    destruct Hother as [<-|[]]. reflexivity.
  - reflexivity.
  - reflexivity.
Defined.

(** C10 fails as worded: [ckpts] lists [b.pt], which converts when processed
    on its own; the run on the directory ends at [a.pt], and [b.pt] is left
    unconverted. *)
Lemma directory_conversion_counterexample :
  fs sample_world !! "ckpts" = Some (Dir ["a.pt"; "notes.txt"; "b.pt"; "sub"])
  ∧ endswith "b.pt" ".pt" = true
  ∧ (process_file (H:=sample_codec) "ckpts/b.pt" "vae" false sample_world).1 = Ok tt
  ∧ process_pt_files (H:=sample_codec) "ckpts" "vae" false sample_world
    = (Raise (KeyError "state_dict"), sample_world)
  ∧ fs sample_world !! "ckpts/b.safetensors" = None.
Proof. repeat split; reflexivity. Qed.

(** The driver on [vaes]: [m.pt] is converted, [readme.md] and the
    subdirectory [nested] are passed over; and on the text file
    [ckpts/notes.txt]. *)
Lemma directory_conversion_witness :
  process_pt_files (H:=sample_codec) "vaes" "vae" false sample_world
  = (Ok tt,
     World (<["vaes/m.safetensors" := File (replicate 16 x01 ++ replicate 4 x02)]>
              (fs sample_world))
       [[Lit "Saved converted file: vaes/m.safetensors"]])
  ∧ (∃ encoded,
       fs (process_pt_files (H:=sample_codec) "vaes" "vae" false sample_world).2
         !! "vaes/m.safetensors"
       = Some (File encoded))
  ∧ process_pt_files (H:=sample_codec) "ckpts/notes.txt" "vae" false sample_world
    = (Ok tt,
       World (fs sample_world)
         [[Lit "ckpts/notes.txt is not a valid directory or .pt file."]]).
Proof.
  destruct (directory_conversion (H:=sample_codec) "vaes" "vae" false sample_world)
    as [Hdir _].
  destruct (Hdir ["m.pt"; "readme.md"; "nested"]) as [Hrun Hwritten]; [reflexivity |].
  split; [rewrite Hrun; reflexivity |]. split.
  - apply (Hwritten _ (surjective_pairing _) "m.pt"); [| reflexivity].
    apply list_elem_of_In. simpl. tauto.
  - destruct (directory_conversion (H:=sample_codec) "ckpts/notes.txt" "vae" false
                sample_world) as [_ Hfile].
    apply (Hfile []); reflexivity.
Defined.
